(** * Task-dispatch coordinator and local worker: a shallow embedding

    The two Python services of the repository are embedded as Rocq
    functions: [src/api/main.py] (worker registry, allocation planner,
    dispatch coordinator) in module [Api], [src/worker/worker.py] (the
    remote executor) in module [WorkerSvc].

    Conventions of the embedding.
    - A Python [int] is a [Z]; a Python [float] is an IEEE-754 binary64 value
      in decoded form ([spec_float] of the Standard Library).
    - A Python [str] is a [string]; each character stands for one code point
      below 256.
    - A value parsed from JSON is a [json]; Python's [None] is [JNull].
    - The module-level dict [workers] is an association list kept in insertion
      order, because [sorted] is stable and ties on [registered_at] are broken
      by that order.
    - A handler returns an [outcome]: a value, an [HTTPException] raised on
      purpose, or an exception of the interpreter.
    - What the environment decides (clock readings, the answers of the
      network, the timeout setting, the operating system under the worker)
      is an argument of the function that meets it. *)

From Stdlib Require Import ZArith Lia List Bool Ascii String.
From Stdlib Require Import Floats.SpecFloat Sorting.Sorted.
From stdpp Require Import base option list gmap strings pretty.

Import ListNotations.
Set Warnings "-register-all".
Local Open Scope string_scope.
Local Open Scope list_scope.
Local Open Scope Z_scope.

(** ** Python values and builtins *)

Module Py.

(** What [json.loads] produces. *)
Inductive json : Type :=
| JNull
| JBool (b : bool)
| JInt (n : Z)
| JFloat (f : spec_float)
| JStr (s : string)
| JList (l : list json)
| JDict (d : gmap string json).

(** Interpreter exceptions that the modelled code can let escape. *)
Inductive exn : Type :=
| ZeroDivisionError
| ValueError
| TypeError
| OverflowError
| OSError.

(** Details of the [HTTPException]s the two services raise. *)
Inductive detail : Type :=
| missing_url          (* main.py:156 *)
| bad_scheme           (* main.py:158 *)
| no_worker_available  (* main.py:225 *)
| empty_name           (* worker.py:131 *)
| negative_count.      (* worker.py:133 *)

Inductive outcome (A : Type) : Type :=
| Ok (a : A)
| HTTPException (status_code : Z) (d : detail)
| Raise (e : exn).
Arguments Ok {A} a.
Arguments HTTPException {A} status_code d.
Arguments Raise {A} e.

#[global] Instance outcome_ret : MRet outcome := fun A a => Ok a.
#[global] Instance outcome_bind : MBind outcome := fun A B k m =>
  match m with
  | Ok a => k a
  | HTTPException c d => HTTPException c d
  | Raise e => Raise e
  end.

(** [bool(v)] for a JSON value. *)
Definition truthy (v : json) : bool :=
  match v with
  | JNull => false
  | JBool b => b
  | JInt n => negb (n =? 0)
  | JFloat (S754_zero _) => false
  | JFloat _ => true
  | JStr s => negb (String.eqb s "")
  | JList l => match l with [] => false | _ => true end
  | JDict d => match map_to_list d with [] => false | _ => true end
  end.

(** [a or b]. *)
Definition or_else (a b : json) : json := if truthy a then a else b.

(** [str.isspace] on one code point below 256. *)
Definition isspace (c : ascii) : bool :=
  let n := N_of_ascii c in
  ((9 <=? n) && (n <=? 13) || (28 <=? n) && (n <=? 32)
   || (n =? 133) || (n =? 160))%N.

Fixpoint lstrip_chars (l : list ascii) : list ascii :=
  match l with
  | c :: l' => if isspace c then lstrip_chars l' else l
  | [] => []
  end.

(** [s.strip()]. *)
Definition strip (s : string) : string :=
  string_of_list_ascii
    (rev (lstrip_chars (rev (lstrip_chars (list_ascii_of_string s))))).

(** [s.startswith(p)]. *)
Definition startswith (s p : string) : bool := String.prefix p s.

(** [int(f)] for a float: truncation towards zero. *)
Definition int_of_float (f : spec_float) : outcome Z :=
  match f with
  | S754_zero _ => Ok 0
  | S754_infinity _ => Raise OverflowError
  | S754_nan => Raise ValueError
  | S754_finite s m e =>
      let mag := if 0 <=? e then Z.shiftl (Zpos m) e
                 else Z.shiftr (Zpos m) (- e) in
      Ok (if s then - mag else mag)
  end.

(** binary64 parameters. *)
Definition prec : Z := 53.
Definition emax : Z := 1024.

(** [float(n)] for a small non-negative literal, and [x * y] on floats. *)
Definition float_of_Z (n : Z) : spec_float :=
  binary_normalize prec emax n 0 false.
Definition fmul (x y : spec_float) : spec_float := SFmul prec emax x y.

(** The digits of an [int(str)] literal: decimal digits, a single underscore
    allowed between two digits.  [after_digit] tells whether the previous
    character was a digit; [acc] is the value read so far. *)
Fixpoint int_digits (l : list ascii) (after_digit : bool) (acc : Z) : option Z :=
  match l with
  | [] => if after_digit then Some acc else None
  | c :: l' =>
      let n := N_of_ascii c in
      if ((48 <=? n) && (n <=? 57))%N
      then int_digits l' true (10 * acc + Z.of_N (n - 48))
      else if (n =? 95)%N && after_digit
           then match l' with
                | [] => None
                | c' :: _ =>
                    let n' := N_of_ascii c' in
                    if ((48 <=? n') && (n' <=? 57))%N
                    then int_digits l' false acc else None
                end
           else None
  end.

(** The whitespace that [int] skips around a literal: tab to carriage
    return and the blank, and the two whitespace code points above 127, which
    the interpreter turns into blanks first.  The separators 28 to 31 are
    whitespace for [str.strip] but not here. *)
Definition int_space (c : ascii) : bool :=
  let n := N_of_ascii c in
  ((9 <=? n) && (n <=? 13) || (n =? 32) || (n =? 133) || (n =? 160))%N.

Fixpoint skip_int_space (l : list ascii) : list ascii :=
  match l with
  | c :: l' => if int_space c then skip_int_space l' else l
  | [] => []
  end.

Definition is_digit (c : ascii) : bool :=
  let n := N_of_ascii c in ((48 <=? n) && (n <=? 57))%N.

(** The interpreter's default limit on the digits of a decimal literal
    ([sys.int_info.default_max_str_digits]). *)
Definition int_max_str_digits : nat := 4300.

(** [int(s)] for a str: surrounding whitespace is skipped, then an optional
    sign and the digits; a literal with more digits than the limit is
    refused. *)
Definition int_of_str (s : string) : outcome Z :=
  let body :=
    rev (skip_int_space (rev (skip_int_space (list_ascii_of_string s)))) in
  let signed :=
    match body with
    | "-"%char :: l => option_map Z.opp (int_digits l false 0)
    | "+"%char :: l => int_digits l false 0
    | l => int_digits l false 0
    end in
  match signed with
  | Some n =>
      if (int_max_str_digits <? length (List.filter is_digit body))%nat
      then Raise ValueError else Ok n
  | None => Raise ValueError
  end.

(** [int(v)]. *)
Definition int (v : json) : outcome Z :=
  match v with
  | JNull => Raise TypeError
  | JBool b => Ok (if b then 1 else 0)
  | JInt n => Ok n
  | JFloat f => int_of_float f
  | JStr s => int_of_str s
  | JList _ => Raise TypeError
  | JDict _ => Raise TypeError
  end.

(** [d.get(k)] on a payload that is known to be a dict. *)
Definition dict_get (d : gmap string json) (k : string) : json :=
  default JNull (d !! k).

(** [f"{n}"] for an int. *)
Definition str_of_int (n : Z) : string := pretty n.

(** [str(v)] for a JSON value.  The text of a float, a list or a dict is
    the interpreter's [repr], taken as [repr_other]. *)
Definition str_of (repr_other : json -> string) (v : json) : string :=
  match v with
  | JNull => "None"
  | JBool true => "True"
  | JBool false => "False"
  | JInt n => str_of_int n
  | JStr s => s
  | _ => repr_other v
  end.

(** [s.split(",")] on the characters of [s]. *)
Fixpoint split_comma (l : list ascii) : list (list ascii) :=
  match l with
  | [] => [[]]
  | c :: l' =>
      if Ascii.eqb c "," then [] :: split_comma l'
      else match split_comma l' with
           | p :: ps => (c :: p) :: ps
           | [] => [[c]]
           end
  end.

End Py.

(** ** The dispatch API: [src/api/main.py] *)

Module Api.
Import Py.

(** [class Worker] (main.py:14-21). *)
Record Worker : Type := mkWorker {
  id : string;
  label : string;
  url : string;
  registered_at : spec_float;
  last_seen_at : spec_float;
  source : string
}.

(** The global [workers: Dict[str, Worker]] (main.py:24): keys in insertion
    order. *)
Definition registry : Type := list (string * Worker).

(** [workers.get(k)], also [k in workers] when read with [is_Some]. *)
Fixpoint reg_get (d : registry) (k : string) : option Worker :=
  match d with
  | [] => None
  | (k', w) :: d' => if String.eqb k' k then Some w else reg_get d' k
  end.

(** [workers[k] = w]: an existing key keeps its position, a new key goes
    last. *)
Fixpoint reg_set (d : registry) (k : string) (w : Worker) : registry :=
  match d with
  | [] => [(k, w)]
  | (k', w') :: d' =>
      if String.eqb k' k then (k, w) :: d' else (k', w') :: reg_set d' k w
  end.

(** [workers.values()]. *)
Definition reg_values (d : registry) : list Worker := map snd d.
Definition reg_keys (d : registry) : list string := map fst d.

(** The two module globals (main.py:24-25). *)
Record state : Type := mkState {
  workers : registry;
  task_seq : Z
}.

(** [_normalize_url] (main.py:32-36). *)
Fixpoint drop_slashes (l : list ascii) : list ascii :=
  match l with
  | c :: l' => if Ascii.eqb c "/" then drop_slashes l' else l
  | [] => []
  end.

Definition _normalize_url (u : string) : string :=
  let u := strip u in
  string_of_list_ascii (rev (drop_slashes (rev (list_ascii_of_string u)))).

(** [sorted(..., key=lambda w: w.registered_at)]: a stable sort; an element
    stays in front of the later elements whose key is not smaller. *)
Fixpoint insert_by_key (w : Worker) (l : list Worker) : list Worker :=
  match l with
  | [] => [w]
  | y :: l' =>
      if SFltb (registered_at y) (registered_at w)
      then y :: insert_by_key w l'
      else w :: l
  end.

Definition sorted_by_registered_at (l : list Worker) : list Worker :=
  foldr insert_by_key [] l.

(** [_get_workers_list] (main.py:86-87). *)
Definition _get_workers_list (d : registry) : list Worker :=
  sorted_by_registered_at (reg_values d).

(** [_distribute_evenly] (main.py:90-98).  [total // n] raises on an empty
    list. *)
Definition _distribute_evenly (total : Z) (ws : list Worker)
  : outcome (list (Worker * Z)) :=
  let n := Z.of_nat (length ws) in
  if n =? 0 then Raise ZeroDivisionError
  else
    let base := total / n in
    let rem := total mod n in
    Ok (imap (fun i w => (w, base + (if Z.of_nat i <? rem then 1 else 0))) ws).

(** [class RegisterWorkerIn] (main.py:101-104), after pydantic has filled in
    the defaults. *)
Record RegisterWorkerIn : Type := mkRegisterWorkerIn {
  body_url : string;
  body_label : string;
  body_id : option string
}.

(** [class CreateTaskIn] (main.py:107-109). *)
Record CreateTaskIn : Type := mkCreateTaskIn {
  body_name : string;
  body_count : Z
}.

(** [int(_now()*1000)] (main.py:160). *)
Definition millis (t : spec_float) : outcome Z :=
  int_of_float (fmul t (float_of_Z 1000)).

(** The worker id of a registration (main.py:160).  [t_id] is the clock
    reading taken when the body carries no usable id. *)
Definition register_wid (given : option string) (t_id : spec_float)
  : outcome string :=
  let s := strip (default "" given) in
  if negb (String.eqb s "") then Ok s
  else ms ← millis t_id; Ok ("reg-" +:+ str_of_int ms).

(** The label of a registration (main.py:161). *)
Definition register_label (l : string) : string :=
  let s := strip (if negb (String.eqb l "") then l else "worker") in
  if negb (String.eqb s "") then s else "worker".

(** [api_register_worker] (main.py:152-173).  [t_id] and [now] are the two
    readings of [_now()], in program order.  The result is the [worker]
    entry of the response. *)
Definition api_register_worker (body : RegisterWorkerIn)
    (t_id now : spec_float) (st : state) : outcome Worker * state :=
  let url := _normalize_url (body_url body) in
  if String.eqb url "" then (HTTPException 400 missing_url, st)
  else if negb (startswith url "http://" || startswith url "https://")
  then (HTTPException 400 bad_scheme, st)
  else
    match register_wid (body_id body) t_id with
    | Ok wid =>
        let label := register_label (body_label body) in
        let existing := reg_get (workers st) wid in
        let w := {| id := wid;
                    label := label;
                    url := url;
                    registered_at :=
                      match existing with
                      | Some e => registered_at e
                      | None => now
                      end;
                    last_seen_at := now;
                    source := "register" |} in
        (Ok w, {| workers := reg_set (workers st) wid w;
                  task_seq := task_seq st |})
    | HTTPException c d => (HTTPException c d, st)
    | Raise e => (Raise e, st)
    end.

(** The JSON body posted to a worker (main.py:238). *)
Record Payload : Type := mkPayload {
  taskId : string;
  name : string;
  count : Z
}.

(** What [client.post] gives back: a response with its status code and the
    outcome of [r.json()] ([None] when it raises), or an exception with its
    optional [message] attribute and its [str(e)]. *)
Record Response : Type := mkResponse {
  status_code : Z;
  json_body : option json
}.

Inductive PostResult : Type :=
| Responded (r : Response)
| Failed (message : option string) (text : string).

(** The network as one dispatch sees it: for the URL posted to and the body,
    the result of the awaited post and the milliseconds measured around it
    ([int((time.perf_counter() - t0) * 1000)]). *)
Definition Network : Type := string -> Payload -> PostResult * Z.

(** The dict returned by [_call_worker_execute] (main.py:192-212). *)
Record DispatchResult : Type := mkDispatchResult {
  workerId : string;
  r_label : string;
  r_url : string;
  ok : bool;
  status : Z;
  elapsedMs : Z;
  result : json;
  error : json
}.

Definition is_dict (v : json) : bool :=
  match v with JDict _ => true | _ => false end.

(** [_call_worker_execute] (main.py:176-212). *)
Definition _call_worker_execute (net : Network) (worker : Worker)
    (payload : Payload) : DispatchResult :=
  let '(res, ms) := net (url worker +:+ "/execute") payload in
  match res with
  | Responded r =>
      let data := default JNull (json_body r) in
      let ok := (200 <=? status_code r) && (status_code r <? 300) in
      let err :=
        if ok then JNull
        else match data with
             | JDict d => dict_get d "error"
             | _ => JStr ("HTTP " +:+ str_of_int (status_code r))
             end in
      {| workerId := id worker; r_label := label worker; r_url := url worker;
         ok := ok; status := status_code r; elapsedMs := ms;
         result := data; error := err |}
  | Failed message text =>
      let m := match message with
               | Some m => if negb (String.eqb m "") then m else text
               | None => text
               end in
      {| workerId := id worker; r_label := label worker; r_url := url worker;
         ok := false; status := 0; elapsedMs := ms;
         result := JNull; error := JStr m |}
  end.

(** The copy of an entry with a new [last_seen_at] (main.py:248-255). *)
Definition refreshed (now : spec_float) (w : Worker) : Worker :=
  {| id := id w; label := label w; url := url w;
     registered_at := registered_at w;
     last_seen_at := now;
     source := source w |}.

(** The post-dispatch refresh for one result (main.py:245-255). *)
Definition touch (now : spec_float) (d : registry) (r : DispatchResult)
  : registry :=
  let wid := workerId r in
  match reg_get d wid with
  | Some w => reg_set d wid (refreshed now w)
  | None => d
  end.

(** The loop over [per_worker] (main.py:244-255). *)
Definition touch_all (now : spec_float) (per_worker : list DispatchResult)
    (d : registry) : registry :=
  fold_left (touch now) per_worker d.

(** The [created_total] loop (main.py:260-263). *)
Definition add_created (acc : outcome Z) (x : DispatchResult) : outcome Z :=
  total ← acc;
  match result x with
  | JDict d =>
      c ← int (or_else (dict_get d "created") (JInt 0));
      Ok (total + c)
  | _ => Ok total
  end.

Definition created_total (per_worker : list DispatchResult) : outcome Z :=
  fold_left add_created per_worker (Ok 0).

(** [sum(1 for x in per_worker if x.get("ok"))] (main.py:258). *)
Definition success_count (per_worker : list DispatchResult) : Z :=
  Z.of_nat (length (filter (fun x => ok x = true) per_worker)).

(** [next((c for (w, c) in assignments if w.id == wid), 0)] (main.py:277). *)
Fixpoint assigned_count (assignments : list (Worker * Z)) (wid : string) : Z :=
  match assignments with
  | [] => 0
  | (w, c) :: rest =>
      if String.eqb (id w) wid then c else assigned_count rest wid
  end.

Record Assigned : Type := mkAssigned {
  a_workerId : string;
  a_label : string;
  assignedCount : Z
}.

Record Final : Type := mkFinal {
  successServers : Z;
  failedServers : Z;
  createdTotal : Z;
  totalElapsedMs : Z
}.

(** The response of [api_create_task] (main.py:265-287). *)
Record TaskReport : Type := mkTaskReport {
  rep_taskId : string;
  rep_name : string;
  totalCount : Z;
  availableServers : Z;
  perServerAssigned : list Assigned;
  perWorker : list (DispatchResult * Z);
  final : Final
}.

(** One remote call: the URL posted to and the body. *)
Definition Call : Type := (string * Payload)%type.

(** [assignments] (main.py:230), given the plan. *)
Definition positive_assignments (plan : list (Worker * Z)) : list (Worker * Z) :=
  filter (fun wc => 0 < snd wc) plan.

(** The body posted for one assignment (main.py:238), the post it goes with
    (main.py:184) and the call's result (main.py:239). *)
Definition payload_of (task_id name : string) (wc : Worker * Z) : Payload :=
  {| taskId := task_id; name := name; count := snd wc |}.

Definition call_of (task_id name : string) (wc : Worker * Z) : Call :=
  (url (fst wc) +:+ "/execute", payload_of task_id name wc).

Definition dispatch_one (net : Network) (task_id name : string)
    (wc : Worker * Z) : DispatchResult :=
  _call_worker_execute net (fst wc) (payload_of task_id name wc).

(** [api_create_task] (main.py:215-287), run without interleaving of other
    handlers.  [timeout_s] is the outcome of
    [float(os.getenv("WORKER_TIMEOUT_S", "60"))] at main.py:232, [None] when
    [float] raises on the text of the variable; [net] answers the posts, made
    with that timeout; [now] is the reading of [_now()] at main.py:243 and
    [total_elapsed_ms] the value computed at main.py:257.  Besides the
    response and the globals, the posts issued are returned, in the order of
    [calls]. *)
Definition api_create_task (body : CreateTaskIn)
    (timeout_s : option spec_float) (net : Network)
    (now : spec_float) (total_elapsed_ms : Z) (st : state)
  : outcome TaskReport * state * list Call :=
  let name := strip (body_name body) in
  let count := body_count body in
  let ws := _get_workers_list (workers st) in
  match ws with
  | [] => (HTTPException 400 no_worker_available, st, [])
  | _ :: _ =>
      let seq := task_seq st + 1 in
      let task_id := "task-" +:+ str_of_int seq in
      match _distribute_evenly count ws with
      | Ok plan =>
          let assignments := positive_assignments plan in
          match timeout_s with
          | None =>
              (Raise ValueError,
               {| workers := workers st; task_seq := seq |}, [])
          | Some _ =>
          let calls := map (call_of task_id name) assignments in
          let per_worker := map (dispatch_one net task_id name) assignments in
          let st' := {| workers := touch_all now per_worker (workers st);
                        task_seq := seq |} in
          let success := success_count per_worker in
          let failed := Z.of_nat (length per_worker) - success in
          match created_total per_worker with
          | Ok created =>
              (Ok {| rep_taskId := task_id;
                     rep_name := name;
                     totalCount := count;
                     availableServers := Z.of_nat (length ws);
                     perServerAssigned :=
                       map (fun wc => {| a_workerId := id (fst wc);
                                         a_label := label (fst wc);
                                         assignedCount := snd wc |})
                           assignments;
                     perWorker :=
                       map (fun x => (x, assigned_count assignments (workerId x)))
                           per_worker;
                     final := {| successServers := success;
                                 failedServers := failed;
                                 createdTotal := created;
                                 totalElapsedMs := total_elapsed_ms |} |},
               st', calls)
          | HTTPException c d => (HTTPException c d, st', calls)
          | Raise e => (Raise e, st', calls)
          end
          end
      | HTTPException c d =>
          (HTTPException c d, {| workers := workers st; task_seq := seq |}, [])
      | Raise e =>
          (Raise e, {| workers := workers st; task_seq := seq |}, [])
      end
  end.

(** One entry of the bulk configuration: [(id, label, url)]. *)
Definition EnvEntry : Type := (string * string * string)%type.

Section Environment.

(** [json.loads] ([None] when it raises) and the [repr] behind [str] for
    floats, lists and dicts. *)
Variable loads : string -> option json.
Variable repr_other : json -> string.

(** The loop over a parsed JSON array (main.py:55-62); [i] is the index of
    the first element of [parsed] in the array. *)
Fixpoint json_entries (i : nat) (parsed : list json) : list EnvEntry :=
  match parsed with
  | [] => []
  | x :: rest =>
      match x with
      | JDict d =>
          let wid :=
            strip (str_of repr_other
                     (or_else (dict_get d "id")
                        (JStr ("env-" +:+ str_of_int (Z.of_nat i + 1))))) in
          let label :=
            strip (str_of repr_other
                     (or_else (or_else (dict_get d "label") (dict_get d "name"))
                        (JStr wid))) in
          let url :=
            _normalize_url
              (str_of repr_other (or_else (dict_get d "url") (JStr ""))) in
          if negb (String.eqb url "")
          then (wid, label, url) :: json_entries (S i) rest
          else json_entries (S i) rest
      | _ => json_entries (S i) rest
      end
  end.

(** The comma-separated form (main.py:68-70). *)
Definition csv_entries (raw : string) : list EnvEntry :=
  let urls :=
    map (fun x => _normalize_url (string_of_list_ascii x))
        (split_comma (list_ascii_of_string raw)) in
  let urls := filter (fun u => u <> "") urls in
  imap (fun i u => ("env-" +:+ str_of_int (Z.of_nat i + 1),
                    "worker-" +:+ str_of_int (Z.of_nat i + 1),
                    u)) urls.

(** [_parse_workers_from_env] (main.py:39-70); [env] is the value of the
    variable [WORKERS], [None] when it is not set. *)
Definition _parse_workers_from_env (env : option string) : list EnvEntry :=
  let raw := strip (default "" env) in
  if String.eqb raw "" then []
  else match loads raw with
       | Some (JList parsed) => json_entries 0 parsed
       | _ => csv_entries raw
       end.

(** The body of the loop of [_load_workers_env_once] (main.py:76-83). *)
Definition load_entry (now : spec_float) (d : registry) (e : EnvEntry)
  : registry :=
  let '(wid, label, url) := e in
  reg_set d wid {| id := wid; label := label; url := url;
                   registered_at := now; last_seen_at := now;
                   source := "env" |}.

(** [_load_workers_env_once] (main.py:73-83). *)
Definition _load_workers_env_once (now : spec_float) (env : option string)
    (d : registry) : registry :=
  fold_left (load_entry now) (_parse_workers_from_env env) d.

End Environment.

(** One element of the answer of [api_workers] (main.py:139-146). *)
Record WorkerView : Type := mkWorkerView {
  v_id : string;
  v_label : string;
  v_url : string;
  registeredAt : Z;
  lastSeenAt : Z;
  v_source : string
}.

Definition view_of (w : Worker) : outcome WorkerView :=
  ra ← millis (registered_at w);
  ls ← millis (last_seen_at w);
  Ok {| v_id := id w; v_label := label w; v_url := url w;
        registeredAt := ra; lastSeenAt := ls; v_source := source w |}.

(** A list comprehension whose element expression can raise. *)
Fixpoint collect {A B} (f : A -> outcome B) (l : list A) : outcome (list B) :=
  match l with
  | [] => Ok []
  | x :: rest => y ← f x; ys ← collect f rest; Ok (y :: ys)
  end.

(** [api_workers] (main.py:134-149): the [workers] entry of the answer. *)
Definition api_workers (d : registry) : outcome (list WorkerView) :=
  collect view_of (_get_workers_list d).

End Api.

(** ** The local worker: [src/worker/worker.py] *)

Module WorkerSvc.
Import Py.

(** [class ExecuteIn] (worker.py:42-45). *)
Record ExecuteIn : Type := mkExecuteIn {
  taskId : option string;
  name : string;
  count : Z
}.

(** The response of [_execute] (worker.py:89-97). *)
Record Executed : Type := mkExecuted {
  ok : bool;
  worker : string;
  r_taskId : string;
  created : Z;
  folder : string;
  sampleFiles : list string;
  elapsedMs : Z
}.

(** The files of the machine: path to text. *)
Definition Disk : Type := gmap string string.

(** A NUL character in a path: [open] refuses such a path with a
    [ValueError] (embedded null byte) before the operating system is
    asked. *)
Definition has_nul (s : string) : bool :=
  existsb (Ascii.eqb Ascii.zero) (list_ascii_of_string s).

(** The characters of [bad] (worker.py:49). *)
Definition bad : list ascii :=
  ["/"; "\"; ":"; "*"; "?"; ascii_of_nat 34; "<"; ">"; "|"]%char.

Definition replace_char (ch : ascii) (l : list ascii) : list ascii :=
  map (fun c => if Ascii.eqb c ch then "_"%char else c) l.

(** [_safe_base_name] (worker.py:48-53). *)
Definition _safe_base_name (name : string) : string :=
  let s := list_ascii_of_string (strip name) in
  let s := fold_left (fun s ch => replace_char ch s) bad s in
  match s with
  | [] => "task"
  | _ => string_of_list_ascii (firstn 80 s)
  end.

Definition newline : string := String (ascii_of_nat 10) EmptyString.

(** ["\n".join(parts)]. *)
Fixpoint join_lines (parts : list string) : string :=
  match parts with
  | [] => ""
  | [p] => p
  | p :: rest => p +:+ newline +:+ join_lines rest
  end.

(** [range(1, count + 1)]. *)
Definition range1 (count : Z) : list Z :=
  map (fun k => Z.of_nat k) (seq 1 (Z.to_nat count)).

Section Process.

(** The process environment: [LABEL] (worker.py:30), the text of the path
    [Path.home() / "Desktop" / "test"] (worker.py:57), and the formatted
    clock reading taken while file [i] is written. *)
Variable LABEL : string.
Variable test_dir : string.
Variable stamp : Z -> string.

(** The operating system as the worker meets it: the exception, if any, with
    which finding the home directory or making the folder fails on a disk,
    and the exception with which writing a text under a path fails, together
    with the disk that the failed write leaves behind. *)
Variable mkdir_error : Disk -> option exn.
Variable write_error : Disk -> string -> string -> option (exn * Disk).

(** The loop variables of [_execute]. *)
Record Loop : Type := mkLoop {
  disk : Disk;
  l_created : Z;
  sample_files : list string
}.

(** [_ensure_folder] (worker.py:56-59). *)
Definition _ensure_folder (d : Disk) : outcome string :=
  match mkdir_error d with
  | Some e => Raise e
  | None => Ok test_dir
  end.

(** The text written to file [i] (worker.py:73-81). *)
Definition file_text (task_id name : string) (i : Z) : string :=
  join_lines
    [ "worker=" +:+ LABEL;
      "taskId=" +:+ (if negb (String.eqb task_id "") then task_id else "-");
      "name=" +:+ name;
      "index=" +:+ str_of_int i;
      "createdAt=" +:+ stamp i ].

(** [fp.write_text(text, encoding="utf-8")] (worker.py:72-83): the file is
    created or replaced, unless the path or the operating system is in the
    way; then the exception comes with the disk as it is left. *)
Definition write_text (d : Disk) (fp text : string) : Disk + exn * Disk :=
  if has_nul fp then inr (ValueError, d)
  else match write_error d fp text with
       | Some failure => inr failure
       | None => inl (<[fp := text]> d)
       end.

(** One iteration of the loop (worker.py:70-86). *)
Definition write_one (dir base task_id name : string) (st : Loop) (i : Z)
  : Loop + exn * Disk :=
  let filename := base +:+ "-" +:+ str_of_int i +:+ ".txt" in
  let fp := dir +:+ "/" +:+ filename in
  match write_text (disk st) fp (file_text task_id name i) with
  | inl d' =>
      inl {| disk := d';
             l_created := l_created st + 1;
             sample_files :=
               if (length (sample_files st) <? 5)%nat
               then sample_files st ++ [filename]
               else sample_files st |}
  | inr failure => inr failure
  end.

(** The loop (worker.py:69-86); it ends at the first write that raises. *)
Fixpoint write_all (dir base task_id name : string) (l : list Z) (st : Loop)
  : Loop + exn * Disk :=
  match l with
  | [] => inl st
  | i :: rest =>
      match write_one dir base task_id name st i with
      | inl st' => write_all dir base task_id name rest st'
      | inr failure => inr failure
      end
  end.

(** [_execute] (worker.py:62-97); [elapsed_ms] is the value computed at
    worker.py:88. *)
Definition _execute (elapsed_ms : Z) (d : Disk)
    (task_id name : string) (count : Z) : outcome Executed * Disk :=
  match _ensure_folder d with
  | Ok dir =>
      let base := _safe_base_name name in
      match write_all dir base task_id name (range1 count)
              {| disk := d; l_created := 0; sample_files := [] |} with
      | inl final =>
          (Ok {| ok := true;
                 worker := LABEL;
                 r_taskId := task_id;
                 created := l_created final;
                 folder := dir;
                 sampleFiles := sample_files final;
                 elapsedMs := elapsed_ms |},
           disk final)
      | inr (e, d') => (Raise e, d')
      end
  | HTTPException c dt => (HTTPException c dt, d)
  | Raise e => (Raise e, d)
  end.

(** [execute] (worker.py:127-134). *)
Definition execute (elapsed_ms : Z) (d : Disk) (body : ExecuteIn)
  : outcome Executed * Disk :=
  let name := strip (name body) in
  if String.eqb name "" then (HTTPException 400 empty_name, d)
  else if count body <? 0 then (HTTPException 400 negative_count, d)
  else _execute elapsed_ms d (default "" (taskId body)) name (count body).

End Process.

End WorkerSvc.

(** * Vocabulary of the properties *)

(** ** Terms about the dispatch API *)

Module ApiTerms.
Import Py Api.

(** The sum of the counts of a plan. *)
Definition sum_counts (l : list Z) : Z := foldr Z.add 0 l.

(** How many entries of a plan carry the count [c]. *)
Definition count_of (c : Z) (l : list Z) : nat :=
  length (filter (fun x => x = c) l).

(** Three workers, in registration order. *)
Definition named (k : string) : Worker :=
  {| id := k; label := k; url := "http://" +:+ k;
     registered_at := S754_zero false; last_seen_at := S754_zero false;
     source := "env" |}.
Definition three_workers : list Worker := [named "a"; named "b"; named "c"].

(** The registry invariant: keys are pairwise distinct and every entry sits
    under its own [id]. *)
Definition reg_wf (d : registry) : Prop :=
  NoDup (reg_keys d) /\ Forall (fun kw => id (snd kw) = fst kw) d.

(** What registration accepts as an endpoint (main.py:155-158). *)
Definition accepted_url (u : string) : bool :=
  negb (String.eqb u "")
  && (startswith u "http://" || startswith u "https://").

(** The globals of a process that has registered nothing yet. *)
Definition empty_state : state := {| workers := []; task_seq := 0 |}.

(** Two clock readings that are a quarter of a millisecond apart:
    1700000000.25 s and 1700000000.250244140625 s. *)
Definition reading_a : spec_float :=
  binary_normalize prec emax (1700000000 * 4096 + 1024) (-12) false.
Definition reading_b : spec_float :=
  binary_normalize prec emax (1700000000 * 4096 + 1025) (-12) false.

(** A registry holding the worker [a], registered at [reading_a], and a
    later request that registers the id [a] again. *)
Definition first_a : Worker :=
  {| id := "a"; label := "old"; url := "http://old";
     registered_at := reading_a; last_seen_at := reading_a;
     source := "env" |}.
Definition holding_a : state :=
  {| workers := [("a", first_a)]; task_seq := 3 |}.
Definition again_a : RegisterWorkerIn :=
  {| body_url := " https://b/ "; body_label := "new"; body_id := Some " a " |}.

(** Requests without an id, and with endpoints that registration refuses. *)
Definition anonymous (u : string) : RegisterWorkerIn :=
  {| body_url := u; body_label := "worker"; body_id := None |}.

(** A timeout setting that converts: the default of one minute. *)
Definition one_minute : option spec_float := Some (float_of_Z 60).

(** The assignments that a task request dispatches: the positive ones of
    the plan when the timeout setting converts, none when reading it raises
    (main.py:230-232). *)
Definition dispatched (timeout_s : option spec_float)
    (plan : list (Worker * Z)) : list (Worker * Z) :=
  match timeout_s with
  | Some _ => positive_assignments plan
  | None => []
  end.

(** The id of the task created from the state [st] (main.py:228-229). *)
Definition next_task_id (st : state) : string :=
  "task-" +:+ str_of_int (task_seq st + 1).

(** The ids of the workers that a list of assignments calls. *)
Definition called_ids (assignments : list (Worker * Z)) : list string :=
  map (fun wc => id (fst wc)) assignments.

(** A registry with the workers [a], [b] and [c], a request for two units,
    and a network on which [a] answers 200 and every other post times out. *)
Definition three_registered : state :=
  {| workers := map (fun w => (id w, w)) three_workers; task_seq := 0 |}.
Definition two_units : CreateTaskIn := {| body_name := " n "; body_count := 2 |}.
Definition only_a_answers : Network := fun u p =>
  if String.eqb u "http://a/execute"
  then (Responded {| status_code := 200;
                     json_body := Some (JDict {[ "created" := JInt (count p) ]}) |},
        12)
  else (Failed None "timed out", 60000).
Definition settled : spec_float :=
  binary_normalize prec emax 1700000000 0 false.

(** The [created] entry of a result's payload, [JNull] when the payload is
    not a dict or has no such entry. *)
Definition created_field (x : DispatchResult) : json :=
  match result x with
  | JDict d => dict_get d "created"
  | _ => JNull
  end.

(** The integer a result reports as created; 0 when there is none. *)
Definition created_value (x : DispatchResult) : Z :=
  match created_field x with
  | JInt n => n
  | _ => 0
  end.

(** The payload reports no [created], or an integer. *)
Definition created_is_plain (x : DispatchResult) : bool :=
  match created_field x with
  | JNull | JInt _ => true
  | _ => false
  end.





(** A registry with the single worker [a]. *)
Definition worker_a : Worker :=
  {| id := "a"; label := "mac-1"; url := "http://a";
     registered_at := S754_zero false; last_seen_at := S754_zero false;
     source := "env" |}.

(** The result recorded for [worker_a] on a given network. *)
Definition result_on (net : Network) : DispatchResult :=
  dispatch_one net "task-1" "n" (worker_a, 2).

Definition net_400_detail : Network := fun _ _ =>
  (Responded {| status_code := 400;
                json_body := Some (JDict {[ "detail" := JStr "bad request" ]}) |},
   3).


(** [b] is not registered before [a]: the order of two neighbours in a
    listing sorted by [registered_at]. *)
Definition not_after (a b : Worker) : Prop :=
  SFltb (registered_at b) (registered_at a) = false.

(** The entry of a worker after a dispatch that called the ids [ids]. *)
Definition refreshed_if (now : spec_float) (ids : list string) (w : Worker)
  : Worker :=
  if decide (id w ∈ ids) then refreshed now w else w.

(** The entry found in place of [w] once [w'] has been stored under [k]. *)
Definition replaced (k : string) (w' w : Worker) : Worker :=
  if String.eqb (id w) k then w' else w.

(** No [registered_at] of the list is NaN (clock readings never are). *)
Definition keys_are_numbers (l : list Worker) : Prop :=
  Forall (fun w => registered_at w <> S754_nan) l.

(** A registry whose insertion order is not its registration order: [b] was
    stored first but carries the later reading. *)
Definition late_b : Worker :=
  {| id := "b"; label := "b"; url := "http://b";
     registered_at := reading_b; last_seen_at := reading_b;
     source := "register" |}.
Definition out_of_order : registry := [("b", late_b); ("a", first_a)].

(** The worker that an accepted registration stores (main.py:165-172). *)
Definition registered_worker (body : RegisterWorkerIn) (wid : string)
    (now : spec_float) (st : state) : Worker :=
  {| id := wid;
     label := register_label (body_label body);
     url := _normalize_url (body_url body);
     registered_at :=
       match reg_get (workers st) wid with
       | Some e => registered_at e
       | None => now
       end;
     last_seen_at := now;
     source := "register" |}.

(** A request that registers the new id [c]. *)
Definition new_c : RegisterWorkerIn :=
  {| body_url := "http://c"; body_label := "c"; body_id := Some "c" |}.

(** The plan of [_distribute_evenly] for a list that is not empty
    (main.py:92-97). *)
Definition plan_for (total : Z) (ws : list Worker) : list (Worker * Z) :=
  imap (fun i w =>
          (w, total / Z.of_nat (length ws)
              + (if Z.of_nat i <? total mod Z.of_nat (length ws) then 1 else 0)))
       ws.

(** The assignments, the results and the report of a task request on a
    registry that is not empty (main.py:230, 236-241, 265-287). *)
Definition assignments_of (body : CreateTaskIn) (st : state)
  : list (Worker * Z) :=
  positive_assignments
    (plan_for (body_count body) (_get_workers_list (workers st))).

Definition results_of (body : CreateTaskIn) (net : Network) (st : state)
  : list DispatchResult :=
  map (dispatch_one net (next_task_id st) (strip (body_name body)))
      (assignments_of body st).

Definition report_of (body : CreateTaskIn) (net : Network) (ms : Z)
    (st : state) (created : Z) : TaskReport :=
  {| rep_taskId := next_task_id st;
     rep_name := strip (body_name body);
     totalCount := body_count body;
     availableServers := Z.of_nat (length (_get_workers_list (workers st)));
     perServerAssigned :=
       map (fun wc => {| a_workerId := id (fst wc);
                         a_label := label (fst wc);
                         assignedCount := snd wc |})
           (assignments_of body st);
     perWorker :=
       map (fun x => (x, assigned_count (assignments_of body st) (workerId x)))
           (results_of body net st);
     final := {| successServers := success_count (results_of body net st);
                 failedServers :=
                   Z.of_nat (length (results_of body net st))
                   - success_count (results_of body net st);
                 createdTotal := created;
                 totalElapsedMs := ms |} |}.

(** The number of workers a request for [count] units calls. *)
Definition called_number (count : Z) (st : state) : Z :=
  Z.min count (Z.of_nat (length (workers st))).

(** A network on which every worker keeps the executor contract: status 200
    and a body whose [created] is the count posted. *)
Definition obliging : Network := fun _ p =>
  (Responded {| status_code := 200;
                json_body := Some (JDict {[ "created" := JInt (count p) ]}) |},
   5).

(** A network on which no post completes. *)
Definition unreachable : Network := fun _ _ =>
  (Failed None "connection refused", 1).

(** Every post is answered with a 2xx status and a JSON object whose
    [created] is the count posted: the contract of the remote executor. *)
Definition keeps_contract (net : Network) : Prop :=
  forall u p, exists resp ms d,
    net u p = (Responded resp, ms)
    /\ 200 <= status_code resp < 300
    /\ json_body resp = Some (JDict d)
    /\ d !! "created" = Some (JInt (count p)).

(** No post completes: each one ends in an exception. *)
Definition never_completes (net : Network) : Prop :=
  forall u p, exists m t ms, net u p = (Failed m t, ms).

(** The first and the last character of a text. *)
Definition first_char (s : string) : option ascii :=
  head (list_ascii_of_string s).
Definition last_char (s : string) : option ascii :=
  last (list_ascii_of_string s).

(** A text that [_normalize_url] has nothing to remove from: it neither
    starts nor ends with whitespace and does not end with a slash. *)
Definition clean_url (s : string) : Prop :=
  (forall c, first_char s = Some c -> isspace c = false)
  /\ (forall c, last_char s = Some c -> isspace c = false /\ c <> "/"%char).

(** The parts of a configuration entry, and the worker that the bulk load
    stores for it (main.py:76-83). *)
Definition entry_id (e : EnvEntry) : string := fst (fst e).
Definition entry_label (e : EnvEntry) : string := snd (fst e).
Definition entry_url (e : EnvEntry) : string := snd e.
Definition env_worker (now : spec_float) (e : EnvEntry) : Worker :=
  {| id := entry_id e; label := entry_label e; url := entry_url e;
     registered_at := now; last_seen_at := now; source := "env" |}.

(** The value of [WORKERS] is not a JSON array: [json.loads] raises on it or
    gives something else than a list. *)
Definition not_a_json_list (loads : string -> option json) (raw : string)
  : Prop :=
  forall l, loads raw <> Some (JList l).

(** A [json.loads] that accepts nothing, a [repr] that is never consulted,
    and a comma-separated configuration with an empty piece. *)
Definition rejects_all : string -> option json := fun _ => None.
Definition no_repr : json -> string := fun _ => "".
Definition two_endpoints : option string := Some " https://a/, ,localhost:9// ".

(** Both timestamps of every worker can be shown in whole milliseconds. *)
Definition timestamps_convert (l : list Worker) : Prop :=
  Forall (fun w => exists a b, millis (registered_at w) = Ok a
                               /\ millis (last_seen_at w) = Ok b) l.

(** The element of the answer of [api_workers] that shows the worker [w]. *)
Definition shows (w : Worker) (v : WorkerView) : Prop :=
  v_id v = id w /\ v_label v = label w /\ v_url v = url w
  /\ v_source v = source w
  /\ millis (registered_at w) = Ok (registeredAt v)
  /\ millis (last_seen_at w) = Ok (lastSeenAt v).

(** The entry read from the object [d] found at index [i] of a JSON
    configuration when it carries no usable [id] (main.py:58-60). *)
Definition unnamed_entry (repr_other : json -> string) (i : nat)
    (d : gmap string json) : EnvEntry :=
  let wid := strip ("env-" +:+ str_of_int (Z.of_nat i + 1)) in
  (wid,
   strip (str_of repr_other
            (or_else (or_else (dict_get d "label") (dict_get d "name"))
               (JStr wid))),
   _normalize_url (str_of repr_other (or_else (dict_get d "url") (JStr "")))).

(** A [json.loads] that reads every text as one array: a number, then an
    object that has only a [url]. *)
Definition reads_array : string -> option json := fun _ =>
  Some (JList [JInt 1; JDict {[ "url" := JStr "http://x/" ]}]).

(** A task request for five units. *)
Definition five_units : CreateTaskIn := {| body_name := "job"; body_count := 5 |}.

End ApiTerms.

(** ** Terms about the local worker *)

Module WorkerTerms.
Import Py WorkerSvc.

(** The name of file [i] (worker.py:70). *)
Definition file_name (base : string) (i : Z) : string :=
  base +:+ "-" +:+ str_of_int i +:+ ".txt".

(** A process environment and a request for seven files. *)
Definition my_folder : string := "/Users/me/Desktop/test".
Definition fixed_stamp : Z -> string := fun _ => "2024-01-01T00:00:00Z".
Definition seven_files : ExecuteIn :=
  {| taskId := Some "task-1"; name := " report "; count := 7 |}.

(** The path of file [i] (worker.py:57, 70-71). *)
Definition file_path (dir base : string) (i : Z) : string :=
  dir +:+ "/" +:+ file_name base i.

(** The characters of a text. *)
Definition chars (s : string) : list ascii := list_ascii_of_string s.

(** Another process environment. *)
Definition later_stamp : Z -> string := fun _ => "2024-01-02T00:00:00Z".

(** An operating system that refuses nothing. *)
Definition willing_mkdir : Disk -> option exn := fun _ => None.
Definition willing_write : Disk -> string -> string -> option (exn * Disk) :=
  fun _ _ _ => None.

(** The operating system lets the folder be made and lets each of the
    [count] files of a request be written, whatever is on the disk. *)
Definition lets_write (mkdir_error : Disk -> option exn)
    (write_error : Disk -> string -> string -> option (exn * Disk))
    (dir base : string) (count : Z) : Prop :=
  (forall d, mkdir_error d = None)
  /\ (forall d i text,
        1 <= i <= count -> write_error d (file_path dir base i) text = None).

(** A request for one file whose name is [a], a NUL character, [b]. *)
Definition nul_request : ExecuteIn :=
  {| taskId := Some "task-1";
     name := String "a" (String Ascii.zero (String "b" EmptyString));
     count := 1 |}.

End WorkerTerms.

(** * Properties *)

(** ** The allocation planner *)

Module Planner.
Import Py Api ApiTerms.

Lemma sum_counts_app l1 l2 :
  sum_counts (l1 ++ l2) = sum_counts l1 + sum_counts l2.
Proof. induction l1 as [|x l1 IH]; simpl; [reflexivity | rewrite IH; lia]. Qed.

Lemma sum_counts_replicate k c :
  sum_counts (replicate k c) = Z.of_nat k * c.
Proof. induction k as [|k IH]; simpl; [reflexivity | rewrite IH; lia]. Qed.

Lemma count_of_replicate_same k c : count_of c (replicate k c) = k.
Proof.
  unfold count_of. induction k as [|k IH]; simpl; [reflexivity |].
  rewrite filter_cons_True by reflexivity. simpl. now rewrite IH.
Qed.

Lemma count_of_replicate_other k c c' :
  c' <> c -> count_of c (replicate k c') = 0%nat.
Proof.
  intros Hne. unfold count_of. induction k as [|k IH]; simpl; [reflexivity |].
  now rewrite filter_cons_False by exact Hne.
Qed.

Lemma count_of_app c l1 l2 :
  count_of c (l1 ++ l2) = (count_of c l1 + count_of c l2)%nat.
Proof. unfold count_of. now rewrite filter_app, length_app. Qed.

(** The counts handed out by the loop of [_distribute_evenly]: [r] times
    [base + 1], then [base]. *)
Lemma counts_shape (base : Z) (l : list Worker) :
  forall r : nat, (r <= length l)%nat ->
    map snd (imap (fun i w =>
                     (w, base + (if Z.of_nat i <? Z.of_nat r then 1 else 0))) l)
    = replicate r (base + 1) ++ replicate (length l - r) base.
Proof.
  induction l as [|w l IH]; intros r Hr.
  - simpl in Hr. assert (r = 0%nat) as -> by lia. reflexivity.
  - rewrite imap_cons. cbn [map snd]. destruct r as [|r].
    + replace (Z.of_nat 0 <? Z.of_nat 0) with false by reflexivity.
      cbn [replicate app length Nat.sub].
      rewrite Z.add_0_r. f_equal.
      rewrite (imap_ext _ (fun i w =>
                 (w, base + (if Z.of_nat i <? Z.of_nat 0 then 1 else 0)))).
      * rewrite (IH 0%nat) by lia. simpl. now rewrite Nat.sub_0_r.
      * intros i x _. unfold compose. f_equal. f_equal.
        destruct (Z.ltb_spec (Z.of_nat (S i)) (Z.of_nat 0)),
                 (Z.ltb_spec (Z.of_nat i) (Z.of_nat 0)); lia.
    + replace (Z.of_nat 0 <? Z.of_nat (S r)) with true
        by (symmetry; apply Z.ltb_lt; lia).
      cbn [replicate app length Nat.sub]. f_equal.
      rewrite (imap_ext _ (fun i w =>
                 (w, base + (if Z.of_nat i <? Z.of_nat r then 1 else 0)))).
      * apply IH. simpl in Hr. lia.
      * intros i x _. unfold compose. f_equal. f_equal.
        destruct (Z.ltb_spec (Z.of_nat (S i)) (Z.of_nat (S r))),
                 (Z.ltb_spec (Z.of_nat i) (Z.of_nat r)); lia.
Qed.

Lemma workers_kept (f : nat -> Worker -> Z) (l : list Worker) :
  map fst (imap (fun i w => (w, f i w)) l) = l.
Proof.
  revert f. induction l as [|w l IH]; intros f; [reflexivity |].
  rewrite imap_cons. cbn [map fst]. f_equal. apply (IH (fun i => f (S i))).
Qed.

(** C1. For every [total >= 0] and every non-empty worker list,
    [_distribute_evenly] returns a plan with one entry per worker, in input
    order; its counts are [total mod N] times [base + 1] followed by [base]
    for the remaining workers, where [base = total div N]; hence every count
    is [base] or [base + 1], exactly [total mod N] workers (the first ones)
    receive [base + 1], and the counts sum to [total]. *)
Theorem distribute_evenly_shares (total : Z) (ws : list Worker) :
  0 <= total -> ws <> [] ->
  exists plan,
    _distribute_evenly total ws = Ok plan
    /\ length plan = length ws
    /\ map fst plan = ws
    /\ map snd plan =
         replicate (Z.to_nat (total mod Z.of_nat (length ws)))
                   (total / Z.of_nat (length ws) + 1)
         ++ replicate (length ws - Z.to_nat (total mod Z.of_nat (length ws)))
                      (total / Z.of_nat (length ws))
    /\ Forall (fun c => c = total / Z.of_nat (length ws)
                        \/ c = total / Z.of_nat (length ws) + 1)
              (map snd plan)
    /\ count_of (total / Z.of_nat (length ws) + 1) (map snd plan)
       = Z.to_nat (total mod Z.of_nat (length ws))
    /\ sum_counts (map snd plan) = total.
Proof.
  intros Htotal Hne.
  set (n := Z.of_nat (length ws)).
  assert (Hn : 0 < n) by (destruct ws; [congruence | subst n; simpl; lia]).
  pose proof (Z.mod_pos_bound total n Hn) as Hrem.
  set (base := total / n). set (rem := total mod n) in *.
  assert (Hshape :
    map snd (imap (fun i w => (w, base + (if Z.of_nat i <? rem then 1 else 0))) ws)
    = replicate (Z.to_nat rem) (base + 1)
      ++ replicate (length ws - Z.to_nat rem) base).
  { rewrite <- (counts_shape base ws (Z.to_nat rem)) by (subst n; lia).
    now rewrite Z2Nat.id by lia. }
  eexists. unfold _distribute_evenly. fold n. fold base. fold rem.
  destruct (Z.eqb_spec n 0) as [E|_]; [lia |].
  split; [reflexivity |].
  split; [now rewrite length_imap |].
  split; [apply workers_kept |].
  split; [exact Hshape |].
  rewrite Hshape.
  split; [| split].
  - apply Forall_app. split; apply Forall_forall; intros c Hc;
      apply elem_of_replicate in Hc;
      destruct Hc as [-> _]; auto.
  - rewrite count_of_app, count_of_replicate_same,
      count_of_replicate_other by lia. lia.
  - rewrite sum_counts_app, !sum_counts_replicate.
    rewrite Nat2Z.inj_sub by (subst n; lia). rewrite Z2Nat.id by lia.
    fold n. pose proof (Z.div_mod total n ltac:(lia)) as Hdm.
    fold base in Hdm. fold rem in Hdm. nia.
Qed.

(** Three workers and ten units: the shares are 4, 3 and 3. *)
Lemma distribute_evenly_shares_witness :
  exists plan,
    _distribute_evenly 10 three_workers = Ok plan
    /\ map fst plan = three_workers
    /\ map snd plan = [4; 3; 3]
    /\ sum_counts (map snd plan) = 10.
Proof.
  destruct (distribute_evenly_shares 10 three_workers)
    as (plan & H1 & _ & H3 & H4 & _ & _ & H7); [lia | discriminate |].
  exists plan. repeat split; assumption.
Defined.

End Planner.

(** ** The worker registry *)

Module Registry.
Import Py Api ApiTerms.

Lemma reg_get_set_eq d k w : reg_get (reg_set d k w) k = Some w.
Proof.
  induction d as [|[k' w'] d IH]; simpl.
  - now rewrite String.eqb_refl.
  - destruct (String.eqb_spec k' k) as [->|Hne]; simpl.
    + now rewrite String.eqb_refl.
    + destruct (String.eqb_spec k' k); [contradiction | exact IH].
Qed.

Lemma reg_get_set_ne d k k' w :
  k' <> k -> reg_get (reg_set d k w) k' = reg_get d k'.
Proof.
  intros Hne. induction d as [|[k0 w0] d IH]; simpl.
  - destruct (String.eqb_spec k k'); [congruence | reflexivity].
  - destruct (String.eqb_spec k0 k) as [->|Hk]; simpl.
    + destruct (String.eqb_spec k k'); [congruence | reflexivity].
    + destruct (String.eqb_spec k0 k'); [reflexivity | exact IH].
Qed.

Lemma reg_get_None d k : reg_get d k = None <-> k ∉ reg_keys d.
Proof.
  induction d as [|[k' w'] d IH]; simpl.
  - split; [intros _; apply not_elem_of_nil | reflexivity].
  - rewrite not_elem_of_cons.
    destruct (String.eqb_spec k' k) as [->|Hne].
    + split; [discriminate | intros [H _]; congruence].
    + rewrite IH. split; [intros H; split; [congruence | exact H] | tauto].
Qed.

Lemma reg_get_Some_in d k w : reg_get d k = Some w -> k ∈ reg_keys d.
Proof.
  intros H. destruct (decide (k ∈ reg_keys d)) as [Hin|Hout]; [exact Hin |].
  apply reg_get_None in Hout. congruence.
Qed.

Lemma reg_keys_set_present d k w e :
  reg_get d k = Some e -> reg_keys (reg_set d k w) = reg_keys d.
Proof.
  induction d as [|[k' w'] d IH]; simpl; [discriminate |].
  destruct (String.eqb_spec k' k) as [->|Hne]; simpl; intros H.
  - reflexivity.
  - f_equal. exact (IH H).
Qed.

Lemma reg_keys_set_fresh d k w :
  reg_get d k = None -> reg_keys (reg_set d k w) = reg_keys d ++ [k].
Proof.
  induction d as [|[k' w'] d IH]; simpl; [reflexivity |].
  destruct (String.eqb_spec k' k) as [->|Hne]; simpl; intros H.
  - discriminate.
  - f_equal. exact (IH H).
Qed.

Lemma reg_set_entries d k w :
  id w = k ->
  Forall (fun kw => id (snd kw) = fst kw) d ->
  Forall (fun kw => id (snd kw) = fst kw) (reg_set d k w).
Proof.
  intros Hid. induction d as [|[k' w'] d IH]; simpl; intros H.
  - constructor; [exact Hid | constructor].
  - apply Forall_cons in H. destruct H as [Hh Ht].
    destruct (String.eqb k' k); constructor; auto.
Qed.

Lemma reg_set_wf d k w : id w = k -> reg_wf d -> reg_wf (reg_set d k w).
Proof.
  intros Hid [Hnd Hent]. split; [| now apply reg_set_entries].
  destruct (reg_get d k) as [e|] eqn:E.
  - now rewrite (reg_keys_set_present _ _ _ _ E).
  - rewrite (reg_keys_set_fresh _ _ _ E).
    apply NoDup_app. split; [exact Hnd |]. split.
    + intros x Hx Hk. apply list_elem_of_singleton in Hk. subst x.
      now apply reg_get_None in E.
    + apply NoDup_singleton.
Qed.

End Registry.

(** ** Registration *)

Module Registration.
Import Py Api ApiTerms Registry.

Lemma accepted_url_cases u :
  accepted_url u = true ->
  String.eqb u "" = false
  /\ negb (startswith u "http://" || startswith u "https://") = false.
Proof.
  unfold accepted_url. intros H. apply andb_true_iff in H.
  destruct H as [H1 H2]. apply negb_true_iff in H1. now rewrite H1, H2.
Qed.

(** The run of an accepted registration, once the worker id is known. *)
Lemma register_accepted body t_id now st wid :
  accepted_url (_normalize_url (body_url body)) = true ->
  register_wid (body_id body) t_id = Ok wid ->
  api_register_worker body t_id now st =
    let w := {| id := wid;
                label := register_label (body_label body);
                url := _normalize_url (body_url body);
                registered_at :=
                  match reg_get (workers st) wid with
                  | Some e => registered_at e
                  | None => now
                  end;
                last_seen_at := now;
                source := "register" |} in
    (Ok w, {| workers := reg_set (workers st) wid w;
              task_seq := task_seq st |}).
Proof.
  intros Hurl Hwid. apply accepted_url_cases in Hurl. destruct Hurl as [H1 H2].
  unfold api_register_worker. now rewrite H1, H2, Hwid.
Qed.

(** C4. An accepted registration stores, under its worker id, the new
    endpoint, label and [last_seen_at]; when the id was already registered
    the stored [registered_at] is the one of the old entry and the set of
    ids is the same, when it is fresh [registered_at] is the current time and
    the id is added; the ids of the registry stay pairwise distinct, and no
    other entry changes. *)
Theorem register_upsert body t_id now st wid :
  reg_wf (workers st) ->
  accepted_url (_normalize_url (body_url body)) = true ->
  register_wid (body_id body) t_id = Ok wid ->
  exists w st',
    api_register_worker body t_id now st = (Ok w, st')
    /\ reg_get (workers st') wid = Some w
    /\ id w = wid
    /\ url w = _normalize_url (body_url body)
    /\ label w = register_label (body_label body)
    /\ last_seen_at w = now
    /\ (forall e, reg_get (workers st) wid = Some e ->
          registered_at w = registered_at e
          /\ reg_keys (workers st') = reg_keys (workers st))
    /\ (reg_get (workers st) wid = None ->
          registered_at w = now
          /\ reg_keys (workers st') = reg_keys (workers st) ++ [wid])
    /\ reg_wf (workers st')
    /\ (forall k, k <> wid -> reg_get (workers st') k = reg_get (workers st) k).
Proof.
  intros Hwf Hurl Hwid.
  rewrite (register_accepted body t_id now st wid Hurl Hwid). cbv zeta.
  eexists. eexists. split; [reflexivity |]. cbn [workers].
  split; [apply reg_get_set_eq |].
  do 4 (split; [reflexivity |]).
  split; [| split; [| split]].
  - intros e He. cbn [registered_at]. rewrite He. split; [reflexivity |].
    exact (reg_keys_set_present _ _ _ _ He).
  - intros Hnone. cbn [registered_at]. rewrite Hnone. split; [reflexivity |].
    exact (reg_keys_set_fresh _ _ _ Hnone).
  - apply reg_set_wf; [reflexivity | exact Hwf].
  - intros k Hk. now apply reg_get_set_ne.
Qed.

(** C6. A registration whose normalized endpoint is empty, or starts with
    neither [http://] nor [https://], is answered with a 400 client error and
    leaves the globals as they were. *)
Theorem register_rejects_bad_endpoint body t_id now st :
  String.eqb (_normalize_url (body_url body)) "" = true
  \/ (startswith (_normalize_url (body_url body)) "http://" = false
      /\ startswith (_normalize_url (body_url body)) "https://" = false) ->
  exists d, api_register_worker body t_id now st = (HTTPException 400 d, st).
Proof.
  intros H. unfold api_register_worker.
  destruct (String.eqb (_normalize_url (body_url body)) "") eqn:E.
  - now exists missing_url.
  - destruct H as [H|[H1 H2]]; [discriminate |].
    rewrite H1, H2. now exists bad_scheme.
Qed.

(** C9 (as the code has it). A registration without a usable id takes the id
    [reg-] followed by the clock reading in whole milliseconds; two such
    registrations get the same id exactly when their readings fall in the
    same millisecond. *)
Theorem generated_ids_equal_iff given t1 t2 m1 m2 :
  strip (default "" given) = "" ->
  millis t1 = Ok m1 -> millis t2 = Ok m2 ->
  register_wid given t1 = Ok ("reg-" +:+ str_of_int m1)
  /\ register_wid given t2 = Ok ("reg-" +:+ str_of_int m2)
  /\ ("reg-" +:+ str_of_int m1 = "reg-" +:+ str_of_int m2 <-> m1 = m2).
Proof.
  intros Hblank H1 H2. unfold register_wid. rewrite Hblank, H1, H2.
  split; [reflexivity |]. split; [reflexivity |].
  split; [| now intros ->].
  intros H. apply (inj (String.app "reg-")) in H.
  exact (inj pretty _ _ H).
Qed.

(** Registering [a] again keeps the first [registered_at]. *)
Lemma register_upsert_witness :
  exists w st',
    api_register_worker again_a reading_b reading_b holding_a = (Ok w, st')
    /\ reg_get (workers st') "a" = Some w
    /\ url w = "https://b"
    /\ label w = "new"
    /\ last_seen_at w = reading_b
    /\ registered_at w = reading_a
    /\ reg_keys (workers st') = ["a"]
    /\ reg_wf (workers st').
Proof.
  destruct (register_upsert again_a reading_b reading_b holding_a "a")
    as (w & st' & H1 & H2 & _ & H4 & H5 & H6 & H7 & _ & H9 & _).
  - split; [apply NoDup_singleton | repeat constructor].
  - reflexivity.
  - reflexivity.
  - destruct (H7 first_a eq_refl) as [H7a H7b].
    exists w, st'. do 7 (split; [assumption |]). exact H9.
Defined.

(** The endpoints [ftp://x] and the empty string are refused. *)
Lemma register_rejects_bad_endpoint_witness :
  (exists d, api_register_worker (anonymous "ftp://x") reading_a reading_a holding_a
             = (HTTPException 400 d, holding_a))
  /\ (exists d, api_register_worker (anonymous "") reading_a reading_a holding_a
                = (HTTPException 400 d, holding_a)).
Proof.
  split; apply register_rejects_bad_endpoint.
  - right. split; reflexivity.
  - left. reflexivity.
Defined.

(** Two readings within one millisecond give one id. *)
Lemma generated_ids_equal_iff_witness :
  register_wid None reading_a = Ok ("reg-" +:+ str_of_int 1700000000250)
  /\ register_wid None reading_b = Ok ("reg-" +:+ str_of_int 1700000000250)
  /\ ("reg-" +:+ str_of_int 1700000000250 = "reg-" +:+ str_of_int 1700000000250
      <-> 1700000000250 = 1700000000250).
Proof.
  apply (generated_ids_equal_iff None reading_a reading_b); reflexivity.
Defined.

(** C9 does not hold as stated: two registrations without an id, made at
    different clock readings of the same millisecond, get the same id, and
    the second replaces the entry of the first. *)
Lemma generated_ids_collide :
  SFeqb reading_a reading_b = false
  /\ register_wid None reading_a = Ok "reg-1700000000250"
  /\ register_wid None reading_b = Ok "reg-1700000000250"
  /\ reg_keys
       (workers
          (snd (api_register_worker (anonymous "http://second")
                  reading_b reading_b
                  (snd (api_register_worker (anonymous "http://first")
                          reading_a reading_a empty_state)))))
     = ["reg-1700000000250"]
  /\ option_map url
       (reg_get
          (workers
             (snd (api_register_worker (anonymous "http://second")
                     reading_b reading_b
                     (snd (api_register_worker (anonymous "http://first")
                             reading_a reading_a empty_state)))))
          "reg-1700000000250")
     = Some "http://second".
Proof. vm_compute. repeat split. Qed.

End Registration.

(** ** The dispatch coordinator *)

Module Dispatch.
Import Py Api ApiTerms Registry.

Lemma insert_by_key_cons w l : insert_by_key w l <> [].
Proof. destruct l as [|y l]; simpl; [| destruct (SFltb _ _)]; discriminate. Qed.

Lemma get_workers_list_nil d : _get_workers_list d = [] -> d = [].
Proof.
  destruct d as [|[k w] d]; [reflexivity |].
  unfold _get_workers_list, sorted_by_registered_at. simpl.
  intros H. now apply insert_by_key_cons in H.
Qed.

Lemma refreshed_twice now w : refreshed now (refreshed now w) = refreshed now w.
Proof. reflexivity. Qed.

Lemma touch_get now d r k :
  reg_get (touch now d r) k =
  if decide (k = workerId r) then refreshed now <$> reg_get d k
  else reg_get d k.
Proof.
  unfold touch. destruct (reg_get d (workerId r)) as [w|] eqn:E.
  - destruct (decide (k = workerId r)) as [->|Hne].
    + now rewrite reg_get_set_eq, E.
    + now apply reg_get_set_ne.
  - destruct (decide (k = workerId r)) as [->|Hne]; [now rewrite E | reflexivity].
Qed.

Lemma touch_keys now d r : reg_keys (touch now d r) = reg_keys d.
Proof.
  unfold touch. destruct (reg_get d (workerId r)) as [w|] eqn:E; [| reflexivity].
  exact (reg_keys_set_present _ _ _ _ E).
Qed.

Lemma touch_all_get now rs : forall d k,
  reg_get (touch_all now rs d) k =
  if decide (k ∈ map workerId rs) then refreshed now <$> reg_get d k
  else reg_get d k.
Proof.
  induction rs as [|r rs IH]; intros d k.
  - simpl. destruct (decide (k ∈ [])) as [H|_]; [| reflexivity].
    now apply elem_of_nil in H.
  - unfold touch_all in *. cbn [fold_left map]. rewrite IH, touch_get.
    destruct (decide (k ∈ map workerId rs)) as [Hin|Hout],
             (decide (k = workerId r)) as [->|Hne],
             (decide (_ ∈ workerId r :: map workerId rs)) as [Hc|Hc];
      try reflexivity;
      try (exfalso; apply Hc; first [apply list_elem_of_here
                                    | now apply list_elem_of_further]).
    + destruct (reg_get d (workerId r)); reflexivity.
    + apply elem_of_cons in Hc. destruct Hc; contradiction.
Qed.

Lemma touch_all_keys now rs : forall d,
  reg_keys (touch_all now rs d) = reg_keys d.
Proof.
  induction rs as [|r rs IH]; intros d; [reflexivity |].
  unfold touch_all in *. cbn [fold_left]. now rewrite IH, touch_keys.
Qed.

Lemma dispatch_one_workerId net tid nm wc :
  workerId (dispatch_one net tid nm wc) = id (fst wc).
Proof.
  unfold dispatch_one, _call_worker_execute.
  destruct (net _ _) as [[r|m t] ms]; reflexivity.
Qed.

Lemma dispatched_ids net tid nm asg :
  map workerId (map (dispatch_one net tid nm) asg) = called_ids asg.
Proof.
  unfold called_ids. rewrite map_map. apply map_ext.
  intros wc. apply dispatch_one_workerId.
Qed.

(** What a task request does once the registry is not empty: the plan exists,
    the posts are those of the assignments dispatched (the positive ones when
    the timeout converts, none when it does not), the globals are the
    registry refreshed for those posts and the next counter, and a report,
    when there is one, lists the results of those posts. *)
Lemma create_task_run body timeout_s net now ms st :
  workers st <> [] ->
  exists plan,
    _distribute_evenly (body_count body) (_get_workers_list (workers st)) = Ok plan
    /\ snd (api_create_task body timeout_s net now ms st)
       = map (call_of (next_task_id st) (strip (body_name body)))
             (dispatched timeout_s plan)
    /\ snd (fst (api_create_task body timeout_s net now ms st))
       = {| workers :=
              touch_all now
                (map (dispatch_one net (next_task_id st) (strip (body_name body)))
                     (dispatched timeout_s plan))
                (workers st);
            task_seq := task_seq st + 1 |}
    /\ (forall rep,
          fst (fst (api_create_task body timeout_s net now ms st)) = Ok rep ->
          map fst (perWorker rep)
          = map (dispatch_one net (next_task_id st) (strip (body_name body)))
                (dispatched timeout_s plan)
          /\ map a_workerId (perServerAssigned rep)
             = called_ids (dispatched timeout_s plan)
          /\ created_total (map fst (perWorker rep))
             = Ok (createdTotal (final rep)))
    /\ (timeout_s = None ->
          fst (fst (api_create_task body timeout_s net now ms st))
          = Raise ValueError).
Proof.
  intros Hne. unfold api_create_task, next_task_id.
  destruct (_get_workers_list (workers st)) as [|w0 ws] eqn:Ews.
  { apply get_workers_list_nil in Ews. contradiction. }
  unfold _distribute_evenly.
  destruct (Z.eqb_spec (Z.of_nat (length (w0 :: ws))) 0) as [E|_];
    [simpl in E; lia |].
  eexists. split; [reflexivity |].
  set (plan := imap _ (w0 :: ws)).
  destruct timeout_s as [t|]; cbn [dispatched].
  2:{ cbn [fst snd map]. repeat (split; [reflexivity |]).
      split; [discriminate | reflexivity]. }
  set (asg := positive_assignments plan).
  set (pw := map (dispatch_one net _ _) asg).
  assert (Hfst : forall l : list DispatchResult,
            map fst (map (fun x => (x, assigned_count asg (workerId x))) l) = l).
  { intros l. rewrite map_map. simpl. apply map_id. }
  destruct (created_total pw) as [c|c d|e] eqn:Ec; cbn [fst snd];
    (split; [reflexivity |]); (split; [reflexivity |]);
    (split; [| discriminate]);
    intros rep Hrep; try discriminate.
  injection Hrep as <-. cbn [perWorker perServerAssigned final createdTotal].
  rewrite Hfst. split; [reflexivity |]. split; [| exact Ec].
  unfold called_ids. now rewrite map_map.
Qed.

(** C5. A task requested while the registry is empty is answered with the
    400 "no worker available" client error; no post is issued and the globals
    (registry and task counter) are as before.  The timeout setting is not
    read on that path, so this holds whatever it is. *)
Theorem create_task_without_workers body timeout_s net now ms st :
  workers st = [] ->
  api_create_task body timeout_s net now ms st
  = (HTTPException 400 no_worker_available, st, []).
Proof. intros H. unfold api_create_task. now rewrite H. Qed.

(** With fewer units than workers, the positive assignments are one unit for
    each of the first workers. *)
Lemma positive_small (l : list Worker) :
  forall r : nat, (r <= length l)%nat ->
    positive_assignments
      (imap (fun i w => (w, 0 + (if Z.of_nat i <? Z.of_nat r then 1 else 0))) l)
    = map (fun w => (w, 1)) (take r l).
Proof.
  unfold positive_assignments.
  induction l as [|w l IH]; intros r Hr.
  - simpl in Hr. assert (r = 0%nat) as -> by lia. reflexivity.
  - rewrite imap_cons. destruct r as [|r].
    + replace (Z.of_nat 0 <? Z.of_nat 0) with false by reflexivity.
      rewrite filter_cons_False by (simpl; lia).
      rewrite (imap_ext _ (fun i w =>
                 (w, 0 + (if Z.of_nat i <? Z.of_nat 0 then 1 else 0)))).
      * rewrite (IH 0%nat) by lia. reflexivity.
      * intros i x _. unfold compose. f_equal. f_equal.
        destruct (Z.ltb_spec (Z.of_nat (S i)) (Z.of_nat 0)),
                 (Z.ltb_spec (Z.of_nat i) (Z.of_nat 0)); lia.
    + replace (Z.of_nat 0 <? Z.of_nat (S r)) with true
        by (symmetry; apply Z.ltb_lt; lia).
      rewrite filter_cons_True by (simpl; lia).
      cbn [take map]. f_equal.
      rewrite (imap_ext _ (fun i w =>
                 (w, 0 + (if Z.of_nat i <? Z.of_nat r then 1 else 0)))).
      * apply IH. simpl in Hr. lia.
      * intros i x _. unfold compose. f_equal. f_equal.
        destruct (Z.ltb_spec (Z.of_nat (S i)) (Z.of_nat (S r))),
                 (Z.ltb_spec (Z.of_nat i) (Z.of_nat r)); lia.
Qed.

Lemma positive_assignments_positive plan :
  Forall (fun wc => 0 < snd wc) (positive_assignments plan).
Proof.
  unfold positive_assignments. apply Forall_forall. intros wc Hwc.
  now apply list_elem_of_filter in Hwc.
Qed.

Lemma dispatched_positive timeout_s plan :
  Forall (fun wc => 0 < snd wc) (dispatched timeout_s plan).
Proof.
  destruct timeout_s; [apply positive_assignments_positive | constructor].
Qed.

(** C8. The posts of a task are exactly those of the assignments with a
    positive count, in plan order, when the timeout setting converts, and
    there is no post at all when it does not; every post carries a positive
    count, the report lists one result per such assignment and nothing else;
    and when the requested count is below the number of workers, the
    assignments kept are one unit for each of the first [count] workers of
    the registry listing. *)
Theorem zero_assignments_receive_no_call body timeout_s net now ms st :
  workers st <> [] -> 0 <= body_count body ->
  exists plan,
    _distribute_evenly (body_count body) (_get_workers_list (workers st)) = Ok plan
    /\ snd (api_create_task body timeout_s net now ms st)
       = map (call_of (next_task_id st) (strip (body_name body)))
             (match timeout_s with
              | Some _ => filter (fun wc => 0 < snd wc) plan
              | None => []
              end)
    /\ Forall (fun c => 0 < count (snd c))
              (snd (api_create_task body timeout_s net now ms st))
    /\ (forall rep,
          fst (fst (api_create_task body timeout_s net now ms st)) = Ok rep ->
          map (fun xr => workerId (fst xr)) (perWorker rep)
          = called_ids (filter (fun wc => 0 < snd wc) plan)
          /\ map a_workerId (perServerAssigned rep)
             = called_ids (filter (fun wc => 0 < snd wc) plan))
    /\ (body_count body < Z.of_nat (length (_get_workers_list (workers st))) ->
          filter (fun wc => 0 < snd wc) plan
          = map (fun w => (w, 1))
                (take (Z.to_nat (body_count body))
                      (_get_workers_list (workers st)))).
Proof.
  intros Hne Hcount.
  destruct (create_task_run body timeout_s net now ms st Hne)
    as (plan & Hplan & Hcalls & _ & Hrep & Hnone).
  exists plan. fold (positive_assignments plan).
  split; [exact Hplan |]. split; [exact Hcalls |]. split; [| split].
  - rewrite Hcalls. apply Forall_map.
    exact (dispatched_positive timeout_s plan).
  - intros rep Hr. destruct (Hrep rep Hr) as (Hpw & Hpsa & _).
    destruct timeout_s as [t|];
      [| rewrite Hnone in Hr by reflexivity; discriminate].
    split; [| exact Hpsa].
    rewrite <- (map_map fst workerId), Hpw. apply dispatched_ids.
  - intros Hsmall. revert Hplan. unfold _distribute_evenly.
    set (ws := _get_workers_list (workers st)) in *.
    destruct (Z.eqb_spec (Z.of_nat (length ws)) 0) as [E|_]; [lia |].
    intros [= <-].
    rewrite Z.div_small, Z.mod_small by lia.
    rewrite <- (positive_small ws (Z.to_nat (body_count body))) by lia.
    now rewrite Z2Nat.id by lia.
Qed.

(** C7. After a dispatch, every worker that was called and is in the
    registry has [last_seen_at] set to the settlement time, whatever its call
    returned, with its other fields as before; the entries of the workers that
    were not called are as before; no key is added or removed; and for an id
    that is not in the registry the refresh changes nothing.  The workers
    called are those of the positive assignments when the timeout setting
    converts, and none when it does not. *)
Theorem dispatch_touches_called_workers body timeout_s net now ms st :
  workers st <> [] ->
  exists plan,
    _distribute_evenly (body_count body) (_get_workers_list (workers st)) = Ok plan
    /\ (forall k w,
          k ∈ called_ids (dispatched timeout_s plan) ->
          reg_get (workers st) k = Some w ->
          reg_get (workers (snd (fst (api_create_task body timeout_s net now ms st)))) k
          = Some {| id := id w; label := label w; url := url w;
                    registered_at := registered_at w;
                    last_seen_at := now;
                    source := source w |})
    /\ (forall k,
          k ∉ called_ids (dispatched timeout_s plan) ->
          reg_get (workers (snd (fst (api_create_task body timeout_s net now ms st)))) k
          = reg_get (workers st) k)
    /\ reg_keys (workers (snd (fst (api_create_task body timeout_s net now ms st))))
       = reg_keys (workers st)
    /\ (forall d rs k,
          reg_get d k = None -> reg_get (touch_all now rs d) k = None)
    /\ (forall d r, reg_get d (workerId r) = None -> touch now d r = d).
Proof.
  intros Hne.
  destruct (create_task_run body timeout_s net now ms st Hne)
    as (plan & Hplan & _ & Hst & _).
  exists plan. split; [exact Hplan |]. rewrite Hst. cbn [workers].
  split; [| split; [| split; [| split]]].
  - intros k w Hk Hw. rewrite touch_all_get, dispatched_ids, Hw.
    destruct (decide (k ∈ called_ids (dispatched timeout_s plan)));
      [reflexivity | contradiction].
  - intros k Hk. rewrite touch_all_get, dispatched_ids.
    destruct (decide (k ∈ called_ids (dispatched timeout_s plan)));
      [contradiction | reflexivity].
  - apply touch_all_keys.
  - intros d rs k Hk. rewrite touch_all_get, Hk.
    destruct (decide (k ∈ map workerId rs)); reflexivity.
  - intros d r Hr. unfold touch. now rewrite Hr.
Qed.

(** An empty registry: the request is refused and nothing has happened. *)
Lemma create_task_without_workers_witness :
  api_create_task two_units one_minute only_a_answers settled 7 empty_state
  = (HTTPException 400 no_worker_available, empty_state, []).
Proof. apply create_task_without_workers. reflexivity. Defined.

(** Two units for three workers: [a] and [b] are posted to, [c] is not. *)
Lemma zero_assignments_receive_no_call_witness :
  snd (api_create_task two_units one_minute only_a_answers settled 7 three_registered)
  = [ ("http://a/execute", {| taskId := "task-1"; name := "n"; count := 1 |});
      ("http://b/execute", {| taskId := "task-1"; name := "n"; count := 1 |}) ].
Proof.
  destruct (zero_assignments_receive_no_call
              two_units one_minute only_a_answers settled 7 three_registered)
    as (plan & Hplan & Hcalls & _); [discriminate | simpl; lia |].
  vm_compute in Hplan. injection Hplan as <-.
  rewrite Hcalls. reflexivity.
Defined.

(** After that dispatch [a] (answered) and [b] (timed out) carry the
    settlement time, [c] is as before. *)
Lemma dispatch_touches_called_workers_witness :
  reg_get (workers (snd (fst (api_create_task two_units one_minute only_a_answers settled 7
                                 three_registered)))) "b"
  = Some {| id := "b"; label := "b"; url := "http://b";
            registered_at := S754_zero false;
            last_seen_at := settled;
            source := "env" |}
  /\ reg_get (workers (snd (fst (api_create_task two_units one_minute only_a_answers settled 7
                                   three_registered)))) "c"
     = Some (named "c").
Proof.
  destruct (dispatch_touches_called_workers
              two_units one_minute only_a_answers settled 7 three_registered)
    as (plan & Hplan & Hcalled & Hother & _); [discriminate |].
  vm_compute in Hplan. injection Hplan as <-.
  split.
  - apply (Hcalled "b" (named "b")); [| reflexivity].
    apply list_elem_of_further, list_elem_of_here.
  - rewrite (Hother "c"); [reflexivity |].
    intros H. vm_compute in H.
    apply elem_of_cons in H. destruct H as [H|H]; [discriminate |].
    apply elem_of_cons in H. destruct H as [H|H]; [discriminate |].
    now apply elem_of_nil in H.
Defined.

End Dispatch.

(** ** Aggregation and call classification *)

Module Aggregation.
Import Py Api ApiTerms.

Lemma add_created_plain (a : Z) (x : DispatchResult) :
  created_is_plain x = true ->
  add_created (Ok a) x = Ok (a + created_value x).
Proof.
  unfold created_is_plain, created_value, created_field, add_created.
  cbn [mbind outcome_bind].
  destruct (result x) as [| | | | | |d]; intros H;
    try (now rewrite Z.add_0_r).
  destruct (dict_get d "created") as [| |n| | | |] eqn:E; try discriminate.
  - cbn. now rewrite Z.add_0_r.
  - unfold or_else. cbn [truthy].
    destruct (Z.eqb_spec n 0) as [->|Hn]; cbn; [now rewrite Z.add_0_r | reflexivity].
Qed.

Lemma fold_add_created_plain (rs : list DispatchResult) :
  Forall (fun x => created_is_plain x = true) rs ->
  forall a, fold_left add_created rs (Ok a)
            = Ok (a + sum_counts (map created_value rs)).
Proof.
  induction 1 as [|x rs Hx _ IH]; intros a; cbn [fold_left map].
  - unfold sum_counts. simpl. now rewrite Z.add_0_r.
  - rewrite (add_created_plain a x Hx), IH. f_equal.
    unfold sum_counts. simpl. lia.
Qed.










(** C3, at a failing input: a worker answers 400 with the JSON body
    [{"detail": "bad request"}] (the shape of every [HTTPException] response
    of [src/worker/worker.py]).  The recorded result has [ok] false and
    status 400, but its [error] is null, not the text [HTTP 400]. *)
Theorem http_error_without_error_field :
  ok (result_on net_400_detail) = false
  /\ status (result_on net_400_detail) = 400
  /\ error (result_on net_400_detail) = JNull.
Proof. vm_compute. repeat split. Qed.

End Aggregation.

(** ** The remote executor *)

Module Executor.
Import Py WorkerSvc WorkerTerms.

Lemma range1_length (count : Z) : length (range1 count) = Z.to_nat count.
Proof. unfold range1. now rewrite length_map, length_seq. Qed.

(** C10, at a failing input: one file is requested under the name [a], NUL,
    [b], which is not empty after trimming, on a system that refuses nothing.
    [_safe_base_name] leaves the name as it is, the first write raises
    [ValueError], and the request ends in that exception instead of an answer
    with [ok] true and [created] 1; no file has been written. *)
Theorem execute_name_with_nul :
  String.eqb (strip (name nul_request)) "" = false
  /\ count nul_request = 1
  /\ _safe_base_name (strip (name nul_request)) = name nul_request
  /\ execute "mac-1" my_folder fixed_stamp willing_mkdir willing_write 3 ∅
        nul_request
     = (Raise ValueError, ∅).
Proof. vm_compute. repeat split. Qed.

End Executor.

(** ** The registry listing *)

Module Listing.
Import Py Api ApiTerms Registry.

Lemma SFltb_asym x y : SFltb x y = true -> SFltb y x = false.
Proof.
  unfold SFltb, SFcompare.
  destruct x as [sx|sx| |sx mx ex], y as [sy|sy| |sy my ey];
    try destruct sx; try destruct sy; try discriminate; try reflexivity.
  - rewrite (Z.compare_antisym ex ey).
    destruct (ex ?= ey) eqn:E; simpl; try discriminate; try reflexivity.
    rewrite (eq_sym (Pos.compare_cont_antisym mx my Eq) :
               Pos.compare_cont Eq my mx = CompOpp (Pos.compare_cont Eq mx my)).
    destruct (Pos.compare_cont Eq mx my); simpl; try discriminate; reflexivity.
  - rewrite (Z.compare_antisym ex ey).
    destruct (ex ?= ey) eqn:E; simpl; try discriminate; try reflexivity.
    rewrite (eq_sym (Pos.compare_cont_antisym mx my Eq) :
               Pos.compare_cont Eq my mx = CompOpp (Pos.compare_cont Eq mx my)).
    destruct (Pos.compare_cont Eq mx my); simpl; try discriminate; reflexivity.
Qed.

Lemma insert_by_key_perm w l : insert_by_key w l ≡ₚ w :: l.
Proof.
  induction l as [|y l IH]; simpl; [reflexivity |].
  destruct (SFltb (registered_at y) (registered_at w)); [| reflexivity].
  rewrite IH. apply Permutation_swap.
Qed.

Lemma sorted_by_registered_at_perm l : sorted_by_registered_at l ≡ₚ l.
Proof.
  unfold sorted_by_registered_at.
  induction l as [|w l IH]; simpl; [reflexivity |].
  now rewrite insert_by_key_perm, IH.
Qed.

Lemma insert_by_key_HdRel a w l :
  not_after a w -> HdRel not_after a l -> HdRel not_after a (insert_by_key w l).
Proof.
  intros Haw Hal. destruct l as [|y l]; simpl; [now constructor |].
  destruct (SFltb (registered_at y) (registered_at w)).
  - constructor. now inversion Hal.
  - now constructor.
Qed.

Lemma insert_by_key_sorted w l :
  Sorted not_after l -> Sorted not_after (insert_by_key w l).
Proof.
  induction 1 as [|y l Hs IH Hhd]; simpl.
  - repeat constructor.
  - destruct (SFltb (registered_at y) (registered_at w)) eqn:E.
    + constructor; [exact IH |].
      apply insert_by_key_HdRel; [| exact Hhd].
      unfold not_after. now apply SFltb_asym.
    + constructor; [now constructor |]. constructor. exact E.
Qed.

Lemma sorted_by_registered_at_sorted l :
  Sorted not_after (sorted_by_registered_at l).
Proof.
  unfold sorted_by_registered_at.
  induction l as [|w l IH]; simpl; [constructor |].
  now apply insert_by_key_sorted.
Qed.

Lemma sorted_by_registered_at_fixed l :
  Sorted not_after l -> sorted_by_registered_at l = l.
Proof.
  unfold sorted_by_registered_at.
  induction 1 as [|w l Hs IH Hhd]; simpl; [reflexivity |].
  rewrite IH. destruct Hhd as [|y l Hwy]; simpl; [reflexivity |].
  unfold not_after in Hwy. now rewrite Hwy.
Qed.

Lemma insert_by_key_map (f : Worker -> Worker) w l :
  (forall x, registered_at (f x) = registered_at x) ->
  insert_by_key (f w) (map f l) = map f (insert_by_key w l).
Proof.
  intros Hf. induction l as [|y l IH]; simpl; [reflexivity |].
  rewrite !Hf. destruct (SFltb (registered_at y) (registered_at w)); simpl;
    [now rewrite IH | reflexivity].
Qed.

Lemma sorted_by_registered_at_map (f : Worker -> Worker) l :
  (forall x, registered_at (f x) = registered_at x) ->
  sorted_by_registered_at (map f l) = map f (sorted_by_registered_at l).
Proof.
  intros Hf. unfold sorted_by_registered_at.
  induction l as [|w l IH]; simpl; [reflexivity |].
  now rewrite IH, insert_by_key_map.
Qed.

Lemma reg_get_id d k w : reg_wf d -> reg_get d k = Some w -> id w = k.
Proof.
  intros [_ Hent]. induction d as [|[k0 w0] d IH]; simpl; [discriminate |].
  apply Forall_cons in Hent. destruct Hent as [H0 Hd]. simpl in H0.
  destruct (String.eqb_spec k0 k) as [->|Hne]; [congruence | now apply IH].
Qed.

Lemma replaced_absent d k w' :
  Forall (fun kw => id (snd kw) = fst kw) d -> k ∉ reg_keys d ->
  map (replaced k w') (reg_values d) = reg_values d.
Proof.
  induction d as [|[k0 w0] d IH]; simpl; intros Hent Hk; [reflexivity |].
  apply Forall_cons in Hent. destruct Hent as [H0 Hd]. simpl in H0.
  apply not_elem_of_cons in Hk. destruct Hk as [Hk0 Hk].
  unfold replaced at 1. rewrite H0.
  destruct (String.eqb_spec k0 k) as [E|_]; [congruence |].
  f_equal. now apply IH.
Qed.

Lemma reg_values_set_present d k w' e :
  reg_wf d -> reg_get d k = Some e ->
  reg_values (reg_set d k w') = map (replaced k w') (reg_values d).
Proof.
  intros [Hnd Hent]. induction d as [|[k0 w0] d IH]; simpl; [discriminate |].
  apply Forall_cons in Hent. destruct Hent as [H0 Hd]. simpl in H0.
  apply NoDup_cons in Hnd. destruct Hnd as [Hk0 Hnd].
  unfold replaced at 1. rewrite H0.
  destruct (String.eqb_spec k0 k) as [->|Hne]; simpl; intros He.
  - f_equal. symmetry. now apply replaced_absent.
  - f_equal. now apply IH.
Qed.

Lemma reg_values_set_fresh d k w' :
  reg_get d k = None -> reg_values (reg_set d k w') = reg_values d ++ [w'].
Proof.
  induction d as [|[k0 w0] d IH]; simpl; [reflexivity |].
  destruct (String.eqb_spec k0 k) as [->|Hne]; simpl; intros H;
    [discriminate | f_equal; now apply IH].
Qed.

Lemma touch_wf now d r : reg_wf d -> reg_wf (touch now d r).
Proof.
  intros Hwf. unfold touch.
  destruct (reg_get d (workerId r)) as [w|] eqn:E; [| exact Hwf].
  apply reg_set_wf; [| exact Hwf]. simpl. exact (reg_get_id _ _ _ Hwf E).
Qed.

Lemma reg_values_ids d x :
  Forall (fun kw => id (snd kw) = fst kw) d ->
  In x (reg_values d) -> id x ∈ reg_keys d.
Proof.
  intros Hent Hx. apply in_map_iff in Hx.
  destruct Hx as ([kx wx] & Hsnd & Hin). cbn [snd] in Hsnd. subst wx.
  rewrite Forall_forall in Hent. specialize (Hent (kx, x)). cbn [snd fst] in Hent.
  rewrite Hent by now apply list_elem_of_In.
  apply list_elem_of_In, in_map_iff. now exists (kx, x).
Qed.

Lemma reg_get_unique d k w x :
  reg_wf d -> reg_get d k = Some w -> In x (reg_values d) -> id x = k -> x = w.
Proof.
  intros [Hnd Hent] E Hx Hid. induction d as [|[k0 w0] d IH]; [destruct Hx |].
  apply Forall_cons in Hent. destruct Hent as [H0 Hd].
  apply NoDup_cons in Hnd. destruct Hnd as [Hk0 Hnd].
  change (k0 ∉ reg_keys d) in Hk0. change (NoDup (reg_keys d)) in Hnd.
  change (id w0 = k0) in H0.
  cbn [reg_get] in E. cbn [reg_values map snd] in Hx.
  destruct (String.eqb_spec k0 k) as [Ek|Ek].
  - destruct Hx as [Hx|Hx]; [congruence |].
    exfalso. apply Hk0. replace k0 with (id x) by congruence.
    now apply reg_values_ids.
  - destruct Hx as [Hx|Hx]; [congruence | now apply IH].
Qed.

Lemma reg_values_touch now d r :
  reg_wf d ->
  reg_values (touch now d r)
  = map (refreshed_if now [workerId r]) (reg_values d).
Proof.
  intros Hwf. unfold touch.
  destruct (reg_get d (workerId r)) as [w|] eqn:E.
  - rewrite (reg_values_set_present _ _ _ _ Hwf E).
    apply map_ext_in. intros x Hx. unfold replaced, refreshed_if.
    destruct (String.eqb_spec (id x) (workerId r)) as [Hid|Hid].
    + rewrite decide_True by (rewrite Hid; apply list_elem_of_here).
      f_equal. symmetry. exact (reg_get_unique d _ w x Hwf E Hx Hid).
    + rewrite decide_False; [reflexivity |].
      intros Hin. apply list_elem_of_singleton in Hin. contradiction.
  - symmetry. rewrite <- (map_id (reg_values d)) at 2.
    apply map_ext_in. intros x Hx. unfold refreshed_if.
    rewrite decide_False; [reflexivity |].
    intros Hin. apply list_elem_of_singleton in Hin.
    apply reg_get_None in E. apply E. rewrite <- Hin.
    apply reg_values_ids; [apply Hwf | exact Hx].
Qed.

Lemma refreshed_if_step now k ids x :
  refreshed_if now ids (refreshed_if now [k] x) = refreshed_if now (k :: ids) x.
Proof.
  unfold refreshed_if.
  destruct (decide (id x ∈ [k])) as [Hk|Hk].
  - apply list_elem_of_singleton in Hk.
    rewrite (decide_True (P := id x ∈ k :: ids))
      by (rewrite Hk; apply list_elem_of_here).
    simpl. destruct (decide (id x ∈ ids)); reflexivity.
  - destruct (decide (id x ∈ ids)) as [Hi|Hi].
    + now rewrite decide_True by now apply list_elem_of_further.
    + rewrite decide_False; [reflexivity |].
      intros H. apply elem_of_cons in H. destruct H as [H|H];
        [apply Hk; rewrite H; apply list_elem_of_here | contradiction].
Qed.

Lemma reg_values_touch_all now rs : forall d,
  reg_wf d ->
  reg_wf (touch_all now rs d)
  /\ reg_values (touch_all now rs d)
     = map (refreshed_if now (map workerId rs)) (reg_values d).
Proof.
  induction rs as [|r rs IH]; intros d Hwf.
  - split; [exact Hwf |]. simpl. symmetry.
    rewrite <- (map_id (reg_values d)) at 2. apply map_ext. intros x.
    unfold refreshed_if. rewrite decide_False; [reflexivity | apply not_elem_of_nil].
  - unfold touch_all in *. cbn [fold_left map].
    destruct (IH (touch now d r) (touch_wf now d r Hwf)) as [Hwf' Hv].
    split; [exact Hwf' |].
    rewrite Hv, (reg_values_touch now d r Hwf), map_map.
    apply map_ext. intros x. apply refreshed_if_step.
Qed.

Lemma insert_by_key_map_in (f : Worker -> Worker) w l :
  registered_at (f w) = registered_at w ->
  (forall x, In x l -> registered_at (f x) = registered_at x) ->
  insert_by_key (f w) (map f l) = map f (insert_by_key w l).
Proof.
  intros Hw. induction l as [|y l IH]; intros Hl; simpl; [reflexivity |].
  rewrite Hw, (Hl y) by now left.
  destruct (SFltb (registered_at y) (registered_at w)); simpl; [| reflexivity].
  rewrite IH; [reflexivity |]. intros x Hx. apply Hl. now right.
Qed.

Lemma sorted_map_in (f : Worker -> Worker) l :
  (forall x, In x l -> registered_at (f x) = registered_at x) ->
  sorted_by_registered_at (map f l) = map f (sorted_by_registered_at l).
Proof.
  unfold sorted_by_registered_at.
  induction l as [|w l IH]; intros Hl; simpl; [reflexivity |].
  rewrite IH by (intros x Hx; apply Hl; now right).
  apply insert_by_key_map_in; [apply Hl; now left |].
  intros x Hx. apply Hl. right.
  apply (Permutation_in x (sorted_by_registered_at_perm l)). exact Hx.
Qed.

Lemma insert_by_key_before_last y w l :
  SFltb (registered_at w) (registered_at y) = false ->
  insert_by_key y (l ++ [w]) = insert_by_key y l ++ [w].
Proof.
  intros Hwy. induction l as [|z l IH]; simpl.
  - now rewrite Hwy.
  - destruct (SFltb (registered_at z) (registered_at y)); simpl;
      [now rewrite IH | reflexivity].
Qed.

Lemma sorted_with_latest w l :
  Forall (fun x => SFltb (registered_at w) (registered_at x) = false) l ->
  sorted_by_registered_at (l ++ [w]) = sorted_by_registered_at l ++ [w].
Proof.
  unfold sorted_by_registered_at.
  induction 1 as [|y l Hy _ IH]; simpl; [reflexivity |].
  rewrite IH. now apply insert_by_key_before_last.
Qed.

(** X1. The listing used for planning is a rearrangement of the registry's
    entries, one per entry, in which no worker comes after one that was
    registered later. *)
Theorem get_workers_list_sorted (d : registry) :
  keys_are_numbers (reg_values d) ->
  _get_workers_list d ≡ₚ reg_values d
  /\ Sorted not_after (_get_workers_list d)
  /\ length (_get_workers_list d) = length d.
Proof.
  intros _. unfold _get_workers_list. split; [| split].
  - apply sorted_by_registered_at_perm.
  - apply sorted_by_registered_at_sorted.
  - rewrite (Permutation_length (sorted_by_registered_at_perm (reg_values d))).
    unfold reg_values. apply length_map.
Qed.

(** The worker stored second but registered first is listed first. *)
Lemma get_workers_list_sorted_witness :
  _get_workers_list out_of_order = [first_a; late_b]
  /\ _get_workers_list out_of_order ≡ₚ reg_values out_of_order
  /\ Sorted not_after (_get_workers_list out_of_order).
Proof.
  split; [reflexivity |].
  destruct (get_workers_list_sorted out_of_order) as (Hp & Hs & _);
    [| split; assumption].
  repeat constructor; vm_compute; discriminate.
Defined.

(** X2. The sort is stable: when the entries already stand in registration
    order (ties included, as after a bulk load), the listing is the registry
    in insertion order. *)
Theorem get_workers_list_keeps_sorted_order (d : registry) :
  keys_are_numbers (reg_values d) ->
  Sorted not_after (reg_values d) ->
  _get_workers_list d = reg_values d.
Proof. intros _ Hs. now apply sorted_by_registered_at_fixed. Qed.

(** Three workers with one and the same reading are listed as stored. *)
Lemma get_workers_list_keeps_sorted_order_witness :
  _get_workers_list (workers three_registered) = three_workers.
Proof.
  apply (get_workers_list_keeps_sorted_order (workers three_registered)).
  - repeat constructor; vm_compute; discriminate.
  - repeat constructor.
Defined.

(** X3. A dispatch does not reorder the listing: afterwards it is the old
    listing with the entries of the called workers refreshed, and the
    registry still has pairwise distinct ids.  The workers called are those
    of the positive assignments when the timeout setting converts, and none
    when it does not. *)
Theorem dispatch_keeps_listing_order body timeout_s net now ms st :
  workers st <> [] -> reg_wf (workers st) ->
  exists plan,
    _distribute_evenly (body_count body) (_get_workers_list (workers st)) = Ok plan
    /\ _get_workers_list
         (workers (snd (fst (api_create_task body timeout_s net now ms st))))
       = map (refreshed_if now (called_ids (dispatched timeout_s plan)))
             (_get_workers_list (workers st))
    /\ reg_wf (workers (snd (fst (api_create_task body timeout_s net now ms st)))).
Proof.
  intros Hne Hwf.
  destruct (Dispatch.create_task_run body timeout_s net now ms st Hne)
    as (plan & Hplan & _ & Hst & _).
  exists plan. split; [exact Hplan |]. rewrite Hst. cbn [workers].
  destruct (reg_values_touch_all now
              (map (dispatch_one net (next_task_id st) (strip (body_name body)))
                   (dispatched timeout_s plan))
              (workers st) Hwf) as [Hwf' Hv].
  split; [| exact Hwf'].
  unfold _get_workers_list. rewrite Hv, Dispatch.dispatched_ids.
  apply sorted_by_registered_at_map. intros x. unfold refreshed_if.
  destruct (decide (id x ∈ called_ids (dispatched timeout_s plan))); reflexivity.
Qed.

(** After two units went to [a] and [b], the listing is still [a], [b], [c]. *)
Lemma dispatch_keeps_listing_order_witness :
  map id (_get_workers_list
            (workers (snd (fst (api_create_task two_units one_minute only_a_answers settled 7
                                  three_registered)))))
  = ["a"; "b"; "c"].
Proof.
  destruct (dispatch_keeps_listing_order
              two_units one_minute only_a_answers settled 7 three_registered)
    as (plan & Hplan & Hl & _).
  - discriminate.
  - split; [compute_done | repeat constructor].
  - rewrite Hl. vm_compute in Hplan. injection Hplan as <-. reflexivity.
Defined.

(** X4. Registering an id again does not move the worker in the listing: the
    new listing is the old one with that worker's entry replaced. *)
Theorem reregister_keeps_position body t_id now st wid e :
  reg_wf (workers st) ->
  accepted_url (_normalize_url (body_url body)) = true ->
  register_wid (body_id body) t_id = Ok wid ->
  reg_get (workers st) wid = Some e ->
  _get_workers_list (workers (snd (api_register_worker body t_id now st)))
  = map (replaced wid (registered_worker body wid now st))
        (_get_workers_list (workers st)).
Proof.
  intros Hwf Hurl Hwid He.
  rewrite (Registration.register_accepted body t_id now st wid Hurl Hwid).
  cbv zeta. cbn [snd workers]. fold (registered_worker body wid now st).
  unfold _get_workers_list.
  rewrite (reg_values_set_present _ _ _ _ Hwf He).
  apply sorted_map_in. intros x Hx. unfold replaced.
  destruct (String.eqb_spec (id x) wid) as [Hid|_]; [| reflexivity].
  rewrite (reg_get_unique _ _ _ _ Hwf He Hx Hid).
  unfold registered_worker. cbn [registered_at]. now rewrite He.
Qed.

(** [a], stored second, is registered again later: it stays first. *)
Lemma reregister_keeps_position_witness :
  map id (_get_workers_list
            (workers (snd (api_register_worker again_a reading_b reading_b
                             {| workers := out_of_order; task_seq := 0 |}))))
  = ["a"; "b"].
Proof.
  rewrite (reregister_keeps_position again_a reading_b reading_b
             {| workers := out_of_order; task_seq := 0 |} "a" first_a).
  - reflexivity.
  - split; [compute_done | repeat constructor].
  - reflexivity.
  - reflexivity.
  - reflexivity.
Defined.

(** X5. A worker registered under a new id, at a time that is not before
    any stored registration time, is appended to the listing. *)
Theorem fresh_registration_listed_last body t_id now st wid :
  accepted_url (_normalize_url (body_url body)) = true ->
  register_wid (body_id body) t_id = Ok wid ->
  reg_get (workers st) wid = None ->
  Forall (fun x => SFltb now (registered_at x) = false) (reg_values (workers st)) ->
  _get_workers_list (workers (snd (api_register_worker body t_id now st)))
  = _get_workers_list (workers st) ++ [registered_worker body wid now st].
Proof.
  intros Hurl Hwid Hnone Hlate.
  rewrite (Registration.register_accepted body t_id now st wid Hurl Hwid).
  cbv zeta. cbn [snd workers]. fold (registered_worker body wid now st).
  unfold _get_workers_list. rewrite (reg_values_set_fresh _ _ _ Hnone).
  apply sorted_with_latest.
  unfold registered_worker. cbn [registered_at]. now rewrite Hnone.
Qed.

(** [c] registers after [a] and [b]: it is listed third. *)
Lemma fresh_registration_listed_last_witness :
  map id (_get_workers_list
            (workers (snd (api_register_worker new_c reading_b reading_b
                             {| workers := out_of_order; task_seq := 0 |}))))
  = ["a"; "b"; "c"].
Proof.
  rewrite (fresh_registration_listed_last new_c reading_b reading_b
             {| workers := out_of_order; task_seq := 0 |} "c").
  - reflexivity.
  - reflexivity.
  - reflexivity.
  - reflexivity.
  - repeat constructor.
Defined.

End Listing.

(** ** Task requests *)

Module Tasks.
Import Py Api ApiTerms Registry.

Lemma distribute_plan_for total ws :
  ws <> [] -> _distribute_evenly total ws = Ok (plan_for total ws).
Proof.
  intros Hne. unfold _distribute_evenly, plan_for.
  destruct (Z.eqb_spec (Z.of_nat (length ws)) 0) as [E|_]; [| reflexivity].
  destruct ws; [congruence | simpl in E; lia].
Qed.

(** What a task request on a registry that is not empty returns when the
    timeout setting converts. *)
Lemma create_task_outcome body t net now ms st :
  workers st <> [] ->
  api_create_task body (Some t) net now ms st
  = (created ← created_total (results_of body net st);
       Ok (report_of body net ms st created),
     {| workers := touch_all now (results_of body net st) (workers st);
        task_seq := task_seq st + 1 |},
     map (call_of (next_task_id st) (strip (body_name body)))
         (assignments_of body st)).
Proof.
  intros Hne. unfold api_create_task.
  destruct (_get_workers_list (workers st)) as [|w0 ws] eqn:Ews.
  { apply Dispatch.get_workers_list_nil in Ews. contradiction. }
  rewrite (distribute_plan_for (body_count body) (w0 :: ws)) by discriminate.
  unfold report_of, results_of, assignments_of, next_task_id. rewrite Ews.
  destruct (created_total _) as [c|c d|e]; reflexivity.
Qed.

Lemma plan_for_counts total ws :
  ws <> [] ->
  map snd (plan_for total ws)
  = replicate (Z.to_nat (total mod Z.of_nat (length ws)))
              (total / Z.of_nat (length ws) + 1)
    ++ replicate (length ws - Z.to_nat (total mod Z.of_nat (length ws)))
                 (total / Z.of_nat (length ws)).
Proof.
  intros Hne.
  assert (Hn : 0 < Z.of_nat (length ws)) by (destruct ws; [congruence | simpl; lia]).
  pose proof (Z.mod_pos_bound total _ Hn) as Hrem.
  rewrite <- (Planner.counts_shape _ ws (Z.to_nat (total mod Z.of_nat (length ws))))
    by lia.
  unfold plan_for. now rewrite Z2Nat.id by lia.
Qed.

Lemma plan_for_sum total ws :
  ws <> [] -> sum_counts (map snd (plan_for total ws)) = total.
Proof.
  intros Hne. rewrite (plan_for_counts total ws Hne).
  assert (Hn : 0 < Z.of_nat (length ws)) by (destruct ws; [congruence | simpl; lia]).
  pose proof (Z.mod_pos_bound total _ Hn) as Hrem.
  rewrite Planner.sum_counts_app, !Planner.sum_counts_replicate.
  rewrite Nat2Z.inj_sub, Z2Nat.id by lia.
  pose proof (Z.div_mod total (Z.of_nat (length ws)) ltac:(lia)). nia.
Qed.

Lemma plan_for_bounds total ws wc :
  ws <> [] -> wc ∈ plan_for total ws ->
  total / Z.of_nat (length ws) <= snd wc <= total / Z.of_nat (length ws) + 1.
Proof.
  intros Hne Hwc. unfold plan_for in Hwc.
  apply elem_of_lookup_imap in Hwc. destruct Hwc as (i & w & -> & _).
  cbn [snd]. destruct (_ <? _); lia.
Qed.

Lemma positive_all plan :
  Forall (fun wc => 0 < snd wc) plan -> positive_assignments plan = plan.
Proof.
  unfold positive_assignments. induction 1 as [|wc plan Hwc _ IH]; [reflexivity |].
  rewrite filter_cons_True by exact Hwc. now rewrite IH.
Qed.

Lemma positive_sum plan :
  Forall (fun wc => 0 <= snd wc) plan ->
  sum_counts (map snd (positive_assignments plan)) = sum_counts (map snd plan).
Proof.
  unfold positive_assignments. induction 1 as [|wc plan Hwc _ IH]; [reflexivity |].
  destruct (decide (0 < snd wc)) as [Hp|Hp].
  - rewrite filter_cons_True by exact Hp. simpl. unfold sum_counts in *. simpl.
    now rewrite IH.
  - rewrite filter_cons_False by exact Hp. unfold sum_counts in *. simpl.
    rewrite IH. lia.
Qed.

(** The number of assignments kept: the count, but at most one per worker. *)
Lemma assignments_number total ws :
  ws <> [] -> 0 <= total ->
  Z.of_nat (length (positive_assignments (plan_for total ws)))
  = Z.min total (Z.of_nat (length ws)).
Proof.
  intros Hne Htotal.
  assert (Hn : 0 < Z.of_nat (length ws)) by (destruct ws; [congruence | simpl; lia]).
  destruct (Z.lt_ge_cases total (Z.of_nat (length ws))) as [Hlt|Hge].
  - unfold plan_for. rewrite Z.div_small, Z.mod_small by lia.
    assert (Hk : total = Z.of_nat (Z.to_nat total)) by lia.
    revert Hk. generalize (Z.to_nat total). intros k ->.
    rewrite (Dispatch.positive_small ws k) by lia.
    rewrite length_map, length_take. lia.
  - rewrite positive_all.
    + unfold plan_for. rewrite length_imap. lia.
    + apply Forall_forall. intros wc Hwc.
      pose proof (plan_for_bounds total ws wc Hne Hwc).
      assert (1 <= total / Z.of_nat (length ws))
        by (apply Z.div_le_lower_bound; lia).
      lia.
Qed.

Lemma assignments_sum total ws :
  ws <> [] -> 0 <= total ->
  sum_counts (map snd (positive_assignments (plan_for total ws))) = total.
Proof.
  intros Hne Htotal. rewrite positive_sum; [now apply plan_for_sum |].
  apply Forall_forall. intros wc Hwc.
  pose proof (plan_for_bounds total ws wc Hne Hwc).
  assert (Hn : 0 < Z.of_nat (length ws)) by (destruct ws; [congruence | simpl; lia]).
  assert (0 <= total / Z.of_nat (length ws)) by (apply Z.div_pos; lia).
  lia.
Qed.

Lemma listing_length st :
  length (_get_workers_list (workers st)) = length (workers st).
Proof.
  unfold _get_workers_list.
  rewrite (Permutation_length (Listing.sorted_by_registered_at_perm _)).
  unfold reg_values. apply length_map.
Qed.

Lemma listing_not_nil st : workers st <> [] -> _get_workers_list (workers st) <> [].
Proof. intros Hne H. now apply Dispatch.get_workers_list_nil in H. Qed.

(** And when it does not: the counter has advanced, nothing else has
    happened. *)
Lemma create_task_no_timeout body net now ms st :
  workers st <> [] ->
  api_create_task body None net now ms st
  = (Raise ValueError,
     {| workers := workers st; task_seq := task_seq st + 1 |}, []).
Proof.
  intros Hne. unfold api_create_task.
  destruct (_get_workers_list (workers st)) as [|w0 ws] eqn:Ews.
  { apply Dispatch.get_workers_list_nil in Ews. contradiction. }
  now rewrite (distribute_plan_for (body_count body) (w0 :: ws)) by discriminate.
Qed.

Lemma create_task_report body timeout_s net now ms st rep :
  workers st <> [] ->
  fst (fst (api_create_task body timeout_s net now ms st)) = Ok rep ->
  (exists t, timeout_s = Some t)
  /\ exists created,
       created_total (results_of body net st) = Ok created
       /\ rep = report_of body net ms st created.
Proof.
  intros Hne. destruct timeout_s as [t|].
  - rewrite (create_task_outcome body t net now ms st Hne). cbn [fst].
    destruct (created_total (results_of body net st)) as [c|c d|e];
      cbn; intros H; try discriminate.
    split; [now exists t |].
    exists c. split; [reflexivity | congruence].
  - rewrite (create_task_no_timeout body net now ms st Hne). discriminate.
Qed.

Lemma workers_after body timeout_s net now ms st :
  workers st <> [] ->
  workers (snd (fst (api_create_task body timeout_s net now ms st))) <> [].
Proof.
  intros Hne. destruct timeout_s as [t|].
  - rewrite (create_task_outcome body t net now ms st Hne).
    cbn [fst snd workers]. intros H.
    apply (f_equal reg_keys) in H. rewrite Dispatch.touch_all_keys in H.
    destruct (workers st); [congruence | discriminate].
  - now rewrite (create_task_no_timeout body net now ms st Hne).
Qed.

(** X6. A task request on a registry that is not empty advances the task
    counter by one, also when it ends in an exception (of the timeout setting
    or of the total); its report carries the id [task-] followed by the new
    counter, and the report of any later request carries another id. *)
Theorem task_counter_advances body timeout_s net now ms st :
  workers st <> [] ->
  task_seq (snd (fst (api_create_task body timeout_s net now ms st))) = task_seq st + 1
  /\ (forall rep,
        fst (fst (api_create_task body timeout_s net now ms st)) = Ok rep ->
        rep_taskId rep = "task-" +:+ str_of_int (task_seq st + 1)
        /\ (forall body' timeout_s' net' now' ms' rep',
              fst (fst (api_create_task body' timeout_s' net' now' ms'
                          (snd (fst (api_create_task body timeout_s net now ms st)))))
              = Ok rep' ->
              rep_taskId rep' <> rep_taskId rep)).
Proof.
  intros Hne.
  assert (Hseq : task_seq (snd (fst (api_create_task body timeout_s net now ms st)))
                 = task_seq st + 1).
  { destruct timeout_s as [t|].
    - now rewrite (create_task_outcome body t net now ms st Hne).
    - now rewrite (create_task_no_timeout body net now ms st Hne). }
  split; [exact Hseq |].
  intros rep Hrep.
  destruct (create_task_report body timeout_s net now ms st rep Hne Hrep)
    as (_ & c & _ & ->).
  split; [reflexivity |].
  intros body' timeout_s' net' now' ms' rep' Hrep'.
  destruct (create_task_report body' timeout_s' net' now' ms' _ rep'
              (workers_after body timeout_s net now ms st Hne) Hrep')
    as (_ & c' & _ & ->).
  cbn [rep_taskId report_of]. unfold next_task_id. rewrite Hseq.
  intros H. apply (inj (String.app "task-")) in H.
  apply (inj pretty) in H. lia.
Qed.

(** Two requests in a row are numbered 1 and 2. *)
Lemma task_counter_advances_witness :
  task_seq (snd (fst (api_create_task two_units one_minute only_a_answers settled 7
                        three_registered)))
  = 1.
Proof.
  destruct (task_counter_advances two_units one_minute only_a_answers settled 7
              three_registered) as [H _]; [discriminate | exact H].
Defined.

(** X7. For a count that is not negative, the number of posts is the count,
    capped at the number of registered workers, when the timeout setting
    converts; when it does not, there is no post, the request ends in a
    [ValueError], the counter has advanced and the registry is as before.  A
    report lists as many results as there were posts, splits them into
    successes and failures, gives the size of the registry as
    [availableServers], and its assigned counts add up to the count
    requested. *)
Theorem report_counts body timeout_s net now ms st :
  workers st <> [] -> 0 <= body_count body ->
  (forall t, timeout_s = Some t ->
     Z.of_nat (length (snd (api_create_task body timeout_s net now ms st)))
     = called_number (body_count body) st)
  /\ (timeout_s = None ->
        api_create_task body timeout_s net now ms st
        = (Raise ValueError,
           {| workers := workers st; task_seq := task_seq st + 1 |}, []))
  /\ (forall rep,
        fst (fst (api_create_task body timeout_s net now ms st)) = Ok rep ->
        availableServers rep = Z.of_nat (length (workers st))
        /\ Z.of_nat (length (perWorker rep)) = called_number (body_count body) st
        /\ length (perWorker rep)
           = length (snd (api_create_task body timeout_s net now ms st))
        /\ Z.of_nat (length (perServerAssigned rep))
           = called_number (body_count body) st
        /\ successServers (final rep) + failedServers (final rep)
           = called_number (body_count body) st
        /\ 0 <= successServers (final rep)
        /\ 0 <= failedServers (final rep)
        /\ sum_counts (map assignedCount (perServerAssigned rep))
           = body_count body).
Proof.
  intros Hne Hcount.
  pose proof (listing_not_nil st Hne) as Hl.
  assert (Hnum : Z.of_nat (length (assignments_of body st))
                 = called_number (body_count body) st).
  { unfold assignments_of, called_number.
    now rewrite assignments_number, listing_length. }
  split; [| split].
  - intros t ->. rewrite (create_task_outcome body t net now ms st Hne).
    cbn [snd]. now rewrite length_map.
  - intros ->. exact (create_task_no_timeout body net now ms st Hne).
  - intros rep Hrep.
    destruct (create_task_report body timeout_s net now ms st rep Hne Hrep)
      as ((t & ->) & c & _ & ->).
    rewrite (create_task_outcome body t net now ms st Hne).
    cbn [report_of availableServers perWorker perServerAssigned final
         successServers failedServers snd].
    assert (Hres : length (results_of body net st) = length (assignments_of body st))
      by (unfold results_of; apply length_map).
    assert (Hsucc : 0 <= success_count (results_of body net st)
                    <= Z.of_nat (length (results_of body net st))).
    { unfold success_count. split; [lia |].
      apply inj_le, length_filter. }
    rewrite listing_length, !length_map, Hres, Hnum.
    repeat split; try lia.
    rewrite map_map. cbn [assignedCount].
    unfold assignments_of. now apply assignments_sum.
Qed.

(** Two units and three workers: two posts with a timeout of a minute, and
    none, with the counter advanced, when the setting is no number. *)
Lemma report_counts_witness :
  Z.of_nat (length (snd (api_create_task two_units one_minute only_a_answers settled 7
                           three_registered)))
  = 2
  /\ api_create_task two_units None only_a_answers settled 7 three_registered
     = (Raise ValueError,
        {| workers := workers three_registered; task_seq := 1 |}, []).
Proof.
  split.
  - destruct (report_counts two_units one_minute only_a_answers settled 7
                three_registered) as [H _];
      [discriminate | simpl; lia |].
    exact (H _ eq_refl).
  - destruct (report_counts two_units None only_a_answers settled 7
                three_registered) as (_ & H & _);
      [discriminate | simpl; lia |].
    exact (H eq_refl).
Defined.

Lemma map_id_values d :
  Forall (fun kw => id (snd kw) = fst kw) d -> map id (reg_values d) = reg_keys d.
Proof.
  induction 1 as [|[k w] d Hk _ IH]; [reflexivity |].
  simpl in *. now rewrite Hk, IH.
Qed.

Lemma listing_ids_NoDup d :
  reg_wf d -> NoDup (map id (_get_workers_list d)).
Proof.
  intros [Hnd Hent]. unfold _get_workers_list.
  rewrite (Permutation_map id (Listing.sorted_by_registered_at_perm (reg_values d))).
  now rewrite map_id_values.
Qed.

Lemma positive_ids_NoDup plan :
  NoDup (called_ids plan) -> NoDup (called_ids (positive_assignments plan)).
Proof.
  unfold called_ids, positive_assignments.
  induction plan as [|wc plan IH]; [intros; constructor |].
  cbn [map]. intros Hnd. apply NoDup_cons in Hnd. destruct Hnd as [Hwc Hnd].
  destruct (decide (0 < snd wc)) as [Hp|Hp].
  - rewrite filter_cons_True by exact Hp. cbn [map]. apply NoDup_cons.
    split; [| now apply IH].
    intros Hin. apply Hwc. apply list_elem_of_In, in_map_iff in Hin.
    destruct Hin as (x & Hx & Hin).
    apply list_elem_of_In, in_map_iff. exists x. split; [exact Hx |].
    apply list_elem_of_In. apply list_elem_of_In in Hin.
    now apply list_elem_of_filter in Hin.
  - rewrite filter_cons_False by exact Hp. now apply IH.
Qed.

Lemma assigned_count_own asg :
  NoDup (called_ids asg) ->
  map (fun wc => assigned_count asg (id (fst wc))) asg = map snd asg.
Proof.
  unfold called_ids. induction asg as [|[w c] asg IH]; [reflexivity |].
  cbn [map fst snd]. intros Hnd. apply NoDup_cons in Hnd. destruct Hnd as [Hw Hnd].
  cbn [assigned_count fst]. rewrite String.eqb_refl. f_equal.
  rewrite <- (IH Hnd). apply map_ext_in. intros [w' c'] Hin. cbn [fst].
  destruct (String.eqb_spec (id w) (id w')) as [E|_]; [| reflexivity].
  exfalso. apply Hw. rewrite E.
  apply list_elem_of_In, in_map_iff. now exists (w', c').
Qed.

(** X8. In a report over a registry with pairwise distinct ids, the
    [assignedCount] attached to each result is the count that was assigned
    and posted to that worker: results and plan agree entry by entry. *)
Theorem assigned_count_annotation body timeout_s net now ms st :
  workers st <> [] -> reg_wf (workers st) ->
  forall rep,
    fst (fst (api_create_task body timeout_s net now ms st)) = Ok rep ->
    map snd (perWorker rep) = map assignedCount (perServerAssigned rep)
    /\ map (fun xr => workerId (fst xr)) (perWorker rep)
       = map a_workerId (perServerAssigned rep)
    /\ map snd (perWorker rep)
       = map (fun c => count (snd c)) (snd (api_create_task body timeout_s net now ms st)).
Proof.
  intros Hne Hwf rep Hrep.
  destruct (create_task_report body timeout_s net now ms st rep Hne Hrep)
    as ((t & ->) & c & _ & ->).
  rewrite (create_task_outcome body t net now ms st Hne).
  cbn [report_of perWorker perServerAssigned snd].
  unfold results_of. rewrite !map_map. cbn [snd fst assignedCount a_workerId].
  assert (Hown : map (fun wc => assigned_count (assignments_of body st)
                                  (workerId (dispatch_one net (next_task_id st)
                                               (strip (body_name body)) wc)))
                     (assignments_of body st)
                 = map snd (assignments_of body st)).
  { rewrite <- assigned_count_own.
    - apply map_ext. intros wc. now rewrite Dispatch.dispatch_one_workerId.
    - unfold assignments_of. apply positive_ids_NoDup.
      unfold called_ids, plan_for.
      rewrite <- (map_map fst id), Planner.workers_kept.
      now apply listing_ids_NoDup. }
  split; [exact Hown |]. split.
  - apply map_ext. intros wc. apply Dispatch.dispatch_one_workerId.
  - rewrite Hown. reflexivity.
Qed.

(** Two units for [a], [b], [c]: each of the two results is annotated 1. *)
Lemma assigned_count_annotation_witness :
  exists rep,
    fst (fst (api_create_task two_units one_minute only_a_answers settled 7
                three_registered)) = Ok rep
    /\ map snd (perWorker rep) = map assignedCount (perServerAssigned rep)
    /\ map snd (perWorker rep) = [1; 1].
Proof.
  eexists. split; [vm_compute; reflexivity |]. split; [| reflexivity].
  apply (assigned_count_annotation two_units one_minute only_a_answers settled 7
           three_registered).
  - discriminate.
  - split; [compute_done | repeat constructor].
  - vm_compute. reflexivity.
Defined.

Lemma results_number body net st :
  workers st <> [] -> 0 <= body_count body ->
  Z.of_nat (length (results_of body net st)) = called_number (body_count body) st.
Proof.
  intros Hne Hcount. unfold results_of, assignments_of, called_number.
  rewrite length_map, assignments_number, listing_length;
    [reflexivity | now apply listing_not_nil | exact Hcount].
Qed.

Lemma assigned_total body st :
  workers st <> [] -> 0 <= body_count body ->
  sum_counts (map snd (assignments_of body st)) = body_count body.
Proof.
  intros Hne Hcount. unfold assignments_of.
  apply assignments_sum; [now apply listing_not_nil | exact Hcount].
Qed.

Lemma success_count_all rs :
  Forall (fun x => ok x = true) rs -> success_count rs = Z.of_nat (length rs).
Proof.
  unfold success_count. induction 1 as [|x rs Hx _ IH]; [reflexivity |].
  rewrite filter_cons_True by exact Hx. cbn [length]. lia.
Qed.

Lemma success_count_none rs :
  Forall (fun x => ok x = false) rs -> success_count rs = 0.
Proof.
  unfold success_count. induction 1 as [|x rs Hx _ IH]; [reflexivity |].
  rewrite filter_cons_False by congruence. exact IH.
Qed.

Lemma dispatch_one_contract net tid nm wc :
  keeps_contract net ->
  ok (dispatch_one net tid nm wc) = true
  /\ created_field (dispatch_one net tid nm wc) = JInt (snd wc).
Proof.
  intros Hnet. unfold dispatch_one, _call_worker_execute, created_field.
  destruct (Hnet (url (fst wc) +:+ "/execute") (payload_of tid nm wc))
    as (resp & ms & d & -> & [Hlo Hhi] & Hbody & Hcreated).
  cbn [ok result]. rewrite Hbody. cbn [default].
  split.
  - apply andb_true_iff. split; [apply Z.leb_le | apply Z.ltb_lt]; lia.
  - cbn [payload_of count] in Hcreated. cbn [result default].
    unfold dict_get. simpl. now rewrite Hcreated.
Qed.

Lemma dispatch_one_failed net tid nm wc :
  never_completes net ->
  ok (dispatch_one net tid nm wc) = false
  /\ status (dispatch_one net tid nm wc) = 0
  /\ result (dispatch_one net tid nm wc) = JNull.
Proof.
  intros Hnet. unfold dispatch_one, _call_worker_execute.
  destruct (Hnet (url (fst wc) +:+ "/execute") (payload_of tid nm wc))
    as (m & t & ms & ->).
  repeat split.
Qed.

(** X9. When the timeout setting converts to a float [t] and every worker
    keeps the executor contract, a request for a count that is not negative
    ends in a report, every called worker counts as a success, none as a
    failure, and [createdTotal] is the count requested. *)
Theorem contract_abiding_workers body t net now ms st :
  workers st <> [] -> 0 <= body_count body -> keeps_contract net ->
  exists rep,
    fst (fst (api_create_task body (Some t) net now ms st)) = Ok rep
    /\ successServers (final rep) = called_number (body_count body) st
    /\ failedServers (final rep) = 0
    /\ createdTotal (final rep) = body_count body.
Proof.
  intros Hne Hcount Hnet.
  pose proof (listing_not_nil st Hne) as Hl.
  assert (Hall : Forall (fun x => ok x = true) (results_of body net st)).
  { unfold results_of. apply Forall_map, Forall_forall. intros wc _.
    apply (dispatch_one_contract net _ _ wc Hnet). }
  assert (Hplain : Forall (fun x => created_is_plain x = true)
                     (results_of body net st)).
  { unfold results_of. apply Forall_map, Forall_forall. intros wc _.
    unfold created_is_plain.
    now rewrite (proj2 (dispatch_one_contract net _ _ wc Hnet)). }
  assert (Hvalues : map created_value (results_of body net st)
                    = map snd (assignments_of body st)).
  { unfold results_of. rewrite map_map. apply map_ext. intros wc.
    unfold created_value.
    now rewrite (proj2 (dispatch_one_contract net _ _ wc Hnet)). }
  rewrite (create_task_outcome body t net now ms st Hne). cbn [fst].
  unfold created_total.
  rewrite (Aggregation.fold_add_created_plain _ Hplain 0), Hvalues.
  eexists. split; [reflexivity |].
  cbn [report_of final successServers failedServers createdTotal].
  rewrite (success_count_all _ Hall), (results_number body net st Hne Hcount),
    (assigned_total body st Hne Hcount).
  repeat split; lia.
Qed.

(** Three obliging workers and two units. *)
Lemma contract_abiding_workers_witness :
  exists rep,
    fst (fst (api_create_task two_units one_minute obliging settled 7 three_registered))
    = Ok rep
    /\ successServers (final rep) = 2
    /\ failedServers (final rep) = 0
    /\ createdTotal (final rep) = 2.
Proof.
  apply (contract_abiding_workers two_units (float_of_Z 60) obliging settled 7
           three_registered).
  - discriminate.
  - simpl. lia.
  - intros u p. eexists; eexists; eexists.
    split; [reflexivity |]. split; [simpl; lia |]. split; [reflexivity |].
    apply lookup_singleton_eq.
Defined.

(** X10. When the timeout setting converts to a float [t] and no post
    completes, the request still ends in a report: no success, every called
    worker a failure with status 0, and a [createdTotal] of 0. *)
Theorem unreachable_workers_still_report body t net now ms st :
  workers st <> [] -> 0 <= body_count body -> never_completes net ->
  exists rep,
    fst (fst (api_create_task body (Some t) net now ms st)) = Ok rep
    /\ successServers (final rep) = 0
    /\ failedServers (final rep) = called_number (body_count body) st
    /\ createdTotal (final rep) = 0
    /\ Forall (fun xr => ok (fst xr) = false /\ status (fst xr) = 0)
              (perWorker rep).
Proof.
  intros Hne Hcount Hnet.
  pose proof (listing_not_nil st Hne) as Hl.
  assert (Hnone : Forall (fun x => ok x = false) (results_of body net st)).
  { unfold results_of. apply Forall_map, Forall_forall. intros wc _.
    apply (dispatch_one_failed net _ _ wc Hnet). }
  assert (Hplain : Forall (fun x => created_is_plain x = true)
                     (results_of body net st)).
  { unfold results_of. apply Forall_map, Forall_forall. intros wc _.
    unfold created_is_plain, created_field.
    destruct (dispatch_one_failed net (next_task_id st) (strip (body_name body))
                wc Hnet) as (_ & _ & ->). reflexivity. }
  assert (Hvalues : sum_counts (map created_value (results_of body net st)) = 0).
  { unfold results_of. rewrite map_map.
    induction (assignments_of body st) as [|wc asg IH]; [reflexivity |].
    cbn [map]. unfold sum_counts in *. cbn [foldr]. rewrite IH.
    unfold created_value, created_field.
    destruct (dispatch_one_failed net (next_task_id st) (strip (body_name body))
                wc Hnet) as (_ & _ & ->). reflexivity. }
  rewrite (create_task_outcome body t net now ms st Hne). cbn [fst].
  unfold created_total.
  rewrite (Aggregation.fold_add_created_plain _ Hplain 0), Hvalues.
  eexists. split; [reflexivity |].
  cbn [report_of final successServers failedServers createdTotal perWorker].
  rewrite (success_count_none _ Hnone), (results_number body net st Hne Hcount).
  split; [reflexivity |]. split; [lia |]. split; [reflexivity |].
  apply Forall_map, Forall_forall. intros x Hx. cbn [fst].
  unfold results_of in Hx. apply list_elem_of_In, in_map_iff in Hx.
  destruct Hx as (wc & <- & _).
  destruct (dispatch_one_failed net (next_task_id st) (strip (body_name body))
              wc Hnet) as (H1 & H2 & _). now split.
Qed.

(** Three unreachable workers and two units. *)
Lemma unreachable_workers_still_report_witness :
  exists rep,
    fst (fst (api_create_task two_units one_minute unreachable settled 7 three_registered))
    = Ok rep
    /\ successServers (final rep) = 0
    /\ failedServers (final rep) = 2
    /\ createdTotal (final rep) = 0.
Proof.
  destruct (unreachable_workers_still_report
              two_units (float_of_Z 60) unreachable settled 7 three_registered)
    as (rep & H1 & H2 & H3 & H4 & _).
  - discriminate.
  - simpl. lia.
  - intros u p. eexists; eexists; eexists. reflexivity.
  - exists rep. repeat split; assumption.
Defined.

End Tasks.

(** ** Classification of one call *)

Module Calls.
Import Py Api ApiTerms.

(** X11. Whatever the network does, the result of one call names the worker
    it was made to and is marked [ok] exactly when its status is a 2xx code; a
    result marked [ok] carries no error.  A response keeps its status code and
    parsed body; when the status is not 2xx the error is the body's [error]
    entry if the body is an object, and the text [HTTP] with the code
    otherwise.  A call that never completed has status 0, no body, and a text
    as its error. *)
Theorem call_classification net worker payload :
  workerId (_call_worker_execute net worker payload) = id worker
  /\ r_label (_call_worker_execute net worker payload) = label worker
  /\ r_url (_call_worker_execute net worker payload) = url worker
  /\ (ok (_call_worker_execute net worker payload) = true
      <-> 200 <= status (_call_worker_execute net worker payload) < 300)
  /\ (ok (_call_worker_execute net worker payload) = true ->
      error (_call_worker_execute net worker payload) = JNull)
  /\ (forall resp,
        fst (net (url worker +:+ "/execute") payload) = Responded resp ->
        status (_call_worker_execute net worker payload) = status_code resp
        /\ result (_call_worker_execute net worker payload)
           = default JNull (json_body resp)
        /\ (ok (_call_worker_execute net worker payload) = false ->
            (forall d, json_body resp = Some (JDict d) ->
               error (_call_worker_execute net worker payload)
               = dict_get d "error")
            /\ (is_dict (default JNull (json_body resp)) = false ->
                  error (_call_worker_execute net worker payload)
                  = JStr ("HTTP " +:+ str_of_int (status_code resp)))))
  /\ (forall m t,
        fst (net (url worker +:+ "/execute") payload) = Failed m t ->
        ok (_call_worker_execute net worker payload) = false
        /\ status (_call_worker_execute net worker payload) = 0
        /\ result (_call_worker_execute net worker payload) = JNull
        /\ exists text, error (_call_worker_execute net worker payload) = JStr text).
Proof.
  unfold _call_worker_execute.
  destruct (net (url worker +:+ "/execute") payload) as [[resp|m t] ms];
    cbn [fst workerId r_label r_url ok status result error].
  - do 3 (split; [reflexivity |]).
    split.
    { rewrite andb_true_iff, Z.leb_le, Z.ltb_lt. reflexivity. }
    split.
    { intros ->. reflexivity. }
    split.
    + intros resp' [= <-]. do 2 (split; [reflexivity |]).
      intros ->. split.
      * intros d ->. reflexivity.
      * destruct (default JNull (json_body resp)); cbn [is_dict];
          intros H; [reflexivity .. | discriminate].
    + intros m t [=].
  - do 3 (split; [reflexivity |]).
    split; [split; [discriminate | lia] |].
    split; [discriminate |].
    split; [intros resp [=] |].
    intros m' t' _. do 3 (split; [reflexivity |]). eexists. reflexivity.
Qed.

End Calls.

(** ** Normalization of endpoints *)

Module Normalizing.
Import Py Api ApiTerms.

Lemma lstrip_chars_head l c :
  head (lstrip_chars l) = Some c -> isspace c = false.
Proof.
  induction l as [|x l IH]; simpl; [discriminate |].
  destruct (isspace x) eqn:E; [exact IH | simpl; congruence].
Qed.

Lemma drop_slashes_head l : head (drop_slashes l) <> Some "/"%char.
Proof.
  induction l as [|x l IH]; simpl; [discriminate |].
  destruct (Ascii.eqb_spec x "/"); [exact IH | simpl; congruence].
Qed.

Lemma lstrip_chars_suffix l : exists p, l = p ++ lstrip_chars l.
Proof.
  induction l as [|x l [p Hp]]; simpl; [now exists [] |].
  destruct (isspace x); [exists (x :: p); simpl; now f_equal | now exists []].
Qed.

Lemma drop_slashes_suffix l : exists p, l = p ++ drop_slashes l.
Proof.
  induction l as [|x l [p Hp]]; simpl; [now exists [] |].
  destruct (Ascii.eqb x "/"); [exists (x :: p); simpl; now f_equal | now exists []].
Qed.

Lemma lstrip_chars_fixed l :
  (forall c, head l = Some c -> isspace c = false) -> lstrip_chars l = l.
Proof.
  destruct l as [|x l]; simpl; [reflexivity |].
  intros H. now rewrite (H x eq_refl).
Qed.

Lemma drop_slashes_fixed l : head l <> Some "/"%char -> drop_slashes l = l.
Proof.
  destruct l as [|x l]; simpl; [reflexivity |].
  intros H. destruct (Ascii.eqb_spec x "/"); [congruence | reflexivity].
Qed.

Lemma head_rev {A} (l : list A) : head (rev l) = last l.
Proof.
  induction l as [|x l IH] using rev_ind; [reflexivity |].
  now rewrite rev_app_distr, last_snoc.
Qed.

Lemma last_rev {A} (l : list A) : last (rev l) = head l.
Proof. now rewrite <- head_rev, rev_involutive. Qed.

Lemma head_prefix {A} (a p q : list A) x :
  a = p ++ q -> head p = Some x -> head a = Some x.
Proof. intros -> H. destruct p; [discriminate | exact H]. Qed.

(** The characters of [s.strip()] and of [_normalize_url s]. *)
Lemma strip_chars s :
  list_ascii_of_string (strip s)
  = rev (lstrip_chars (rev (lstrip_chars (list_ascii_of_string s)))).
Proof. unfold strip. apply list_ascii_of_string_of_list_ascii. Qed.

Lemma normalize_chars u :
  list_ascii_of_string (_normalize_url u)
  = rev (drop_slashes (rev (list_ascii_of_string (strip u)))).
Proof. unfold _normalize_url. apply list_ascii_of_string_of_list_ascii. Qed.

Lemma strip_first s c : first_char (strip s) = Some c -> isspace c = false.
Proof.
  unfold first_char. rewrite strip_chars. intros H.
  destruct (lstrip_chars_suffix (rev (lstrip_chars (list_ascii_of_string s))))
    as [p Hp].
  apply (f_equal (@rev ascii)) in Hp. rewrite rev_involutive, rev_app_distr in Hp.
  apply (lstrip_chars_head (list_ascii_of_string s)).
  exact (head_prefix _ _ _ _ Hp H).
Qed.

Lemma normalize_no_trailing_slash u :
  last_char (_normalize_url u) <> Some "/"%char.
Proof.
  unfold last_char. rewrite normalize_chars, last_rev. apply drop_slashes_head.
Qed.

(** X12. A normalized endpoint never ends with a slash and never starts with
    whitespace, and a text that is already clean is returned as it is. *)
Theorem normalize_url_shape (u : string) :
  last_char (_normalize_url u) <> Some "/"%char
  /\ (forall c, first_char (_normalize_url u) = Some c -> isspace c = false)
  /\ (clean_url u -> _normalize_url u = u).
Proof.
  split; [| split].
  - apply normalize_no_trailing_slash.
  - unfold first_char. rewrite normalize_chars. intros c H.
    destruct (drop_slashes_suffix (rev (list_ascii_of_string (strip u)))) as [p Hp].
    apply (f_equal (@rev ascii)) in Hp. rewrite rev_involutive, rev_app_distr in Hp.
    apply (strip_first u). unfold first_char.
    exact (head_prefix _ _ _ _ Hp H).
  - intros [Hfirst Hlast]. unfold first_char, last_char in *.
    assert (Hstrip : strip u = u).
    { unfold strip. rewrite (lstrip_chars_fixed _ Hfirst).
      rewrite lstrip_chars_fixed.
      - rewrite rev_involutive. apply string_of_list_ascii_of_string.
      - intros c Hc. rewrite head_rev in Hc. now apply Hlast. }
    unfold _normalize_url. rewrite Hstrip, drop_slashes_fixed.
    + rewrite rev_involutive. apply string_of_list_ascii_of_string.
    + rewrite head_rev. intros Hc. now apply Hlast in Hc.
Qed.

Lemma register_label_filled l : register_label l <> "".
Proof.
  unfold register_label.
  destruct (String.eqb_spec (strip (if negb (String.eqb l "") then l else "worker")) "");
    simpl; [discriminate | assumption].
Qed.

Lemma register_wid_filled given t_id wid :
  register_wid given t_id = Ok wid -> wid <> "".
Proof.
  unfold register_wid.
  destruct (String.eqb_spec (strip (default "" given)) "") as [E|E]; simpl.
  - destruct (millis t_id); simpl; intros [= <-]. discriminate.
  - now intros [= <-].
Qed.

(** X13. Whatever a registration stores is well formed: the endpoint starts
    with [http://] or [https://] and does not end with a slash, the id and
    the label are not empty, the source is [register], [last_seen_at] is the
    time of the request, the entry is found under its id, and the task counter
    is untouched. *)
Theorem registered_worker_shape body t_id now st w st' :
  api_register_worker body t_id now st = (Ok w, st') ->
  (startswith (url w) "http://" = true \/ startswith (url w) "https://" = true)
  /\ last_char (url w) <> Some "/"%char
  /\ id w <> ""
  /\ label w <> ""
  /\ source w = "register"
  /\ last_seen_at w = now
  /\ reg_get (workers st') (id w) = Some w
  /\ task_seq st' = task_seq st.
Proof.
  unfold api_register_worker.
  destruct (String.eqb (_normalize_url (body_url body)) ""); [discriminate |].
  destruct (startswith (_normalize_url (body_url body)) "http://"
            || startswith (_normalize_url (body_url body)) "https://") eqn:Es;
    cbn [negb]; [| discriminate].
  destruct (register_wid (body_id body) t_id) as [wid| |] eqn:Ew;
    [| discriminate ..].
  intros [= <- <-]. cbn [url id label source last_seen_at workers task_seq].
  split; [now apply orb_true_iff in Es |].
  split; [apply normalize_no_trailing_slash |].
  split; [exact (register_wid_filled _ _ _ Ew) |].
  split; [apply register_label_filled |].
  do 2 (split; [reflexivity |]).
  split; [apply Registry.reg_get_set_eq | reflexivity].
Qed.

(** The request of [again_a] stores the endpoint without its slash. *)
Lemma registered_worker_shape_witness :
  exists w st',
    api_register_worker again_a reading_b reading_b holding_a = (Ok w, st')
    /\ url w = "https://b"
    /\ last_char (url w) <> Some "/"%char
    /\ label w <> "".
Proof.
  eexists. eexists. split; [vm_compute; reflexivity |].
  split; [reflexivity |].
  destruct (registered_worker_shape again_a reading_b reading_b holding_a _ _ eq_refl)
    as (_ & H2 & _ & H4 & _).
  split; assumption.
Defined.

End Normalizing.

(** ** The bulk load from the environment *)

Module BulkLoad.
Import Py Api ApiTerms Registry.

Section Loaded.

Variable loads : string -> option json.
Variable repr_other : json -> string.

Lemma json_entries_urls (parsed : list json) : forall i,
  Forall (fun e => entry_url e <> ""
                   /\ last_char (entry_url e) <> Some "/"%char)
         (json_entries repr_other i parsed).
Proof.
  induction parsed as [|x parsed IH]; intros i; cbn [json_entries]; [constructor |].
  destruct x; try apply IH.
  destruct (String.eqb_spec
              (_normalize_url
                 (str_of repr_other (or_else (dict_get d "url") (JStr "")))) "")
    as [E|E]; cbn [negb]; [apply IH |].
  constructor; [| apply IH]. cbn [entry_url snd]. split; [exact E |].
  apply Normalizing.normalize_no_trailing_slash.
Qed.

Lemma csv_entries_spec (raw : string) (i : nat) (e : EnvEntry) :
  csv_entries raw !! i = Some e ->
  entry_id e = "env-" +:+ str_of_int (Z.of_nat i + 1)
  /\ entry_label e = "worker-" +:+ str_of_int (Z.of_nat i + 1)
  /\ entry_url e <> ""
  /\ last_char (entry_url e) <> Some "/"%char.
Proof.
  unfold csv_entries. rewrite list_lookup_imap.
  destruct (filter _ _ !! i) as [u|] eqn:Eu; [| discriminate].
  cbn. intros [= <-]. do 2 (split; [reflexivity |]).
  cbn [entry_url snd].
  apply list_elem_of_lookup_2, list_elem_of_filter in Eu.
  destruct Eu as [Hne Hin]. split; [exact Hne |].
  apply list_elem_of_In, in_map_iff in Hin. destruct Hin as (x & <- & _).
  apply Normalizing.normalize_no_trailing_slash.
Qed.

Lemma csv_entries_ids_NoDup (raw : string) :
  NoDup (map entry_id (csv_entries raw)).
Proof.
  apply NoDup_alt. intros i j k Hi Hj.
  rewrite list_lookup_fmap in Hi, Hj.
  destruct (csv_entries raw !! i) as [ei|] eqn:Ei; [| discriminate].
  destruct (csv_entries raw !! j) as [ej|] eqn:Ej; [| discriminate].
  cbn in Hi, Hj. injection Hi as <-. injection Hj as Hj.
  destruct (csv_entries_spec raw i ei Ei) as (Hi & _).
  destruct (csv_entries_spec raw j ej Ej) as (Hj' & _).
  rewrite Hi, Hj' in Hj.
  apply (inj (String.app "env-")) in Hj. apply (inj pretty) in Hj. lia.
Qed.

(** X14. Every worker read from the configuration, in either form, has an
    endpoint that is not empty and does not end with a slash (its scheme is
    not looked at); an unset or blank variable configures no worker. *)
Theorem configured_endpoints (env : option string) :
  Forall (fun e => entry_url e <> ""
                   /\ last_char (entry_url e) <> Some "/"%char)
         (_parse_workers_from_env loads repr_other env)
  /\ (strip (default "" env) = "" ->
      _parse_workers_from_env loads repr_other env = []).
Proof.
  unfold _parse_workers_from_env. split.
  - destruct (String.eqb (strip (default "" env)) ""); [constructor |].
    assert (Hcsv : Forall (fun e => entry_url e <> ""
                              /\ last_char (entry_url e) <> Some "/"%char)
                     (csv_entries (strip (default "" env)))).
    { apply Forall_forall. intros e He.
      apply list_elem_of_lookup in He. destruct He as [i Hi].
      now destruct (csv_entries_spec _ i e Hi) as (_ & _ & H). }
    destruct (loads (strip (default "" env))) as [[| | | | |l|]|];
      try exact Hcsv. apply json_entries_urls.
  - intros ->. reflexivity.
Qed.

Lemma parse_as_csv (env : option string) :
  not_a_json_list loads (strip (default "" env)) ->
  _parse_workers_from_env loads repr_other env
  = if String.eqb (strip (default "" env)) "" then []
    else csv_entries (strip (default "" env)).
Proof.
  intros Hnot. unfold _parse_workers_from_env.
  destruct (String.eqb (strip (default "" env)) ""); [reflexivity |].
  destruct (loads (strip (default "" env))) as [[| | | | |l|]|] eqn:E;
    try reflexivity. now destruct (Hnot l).
Qed.

Lemma parse_as_csv_ids (env : option string) :
  not_a_json_list loads (strip (default "" env)) ->
  NoDup (map entry_id (_parse_workers_from_env loads repr_other env)).
Proof.
  intros Hnot. rewrite (parse_as_csv env Hnot).
  destruct (String.eqb (strip (default "" env)) "");
    [constructor | apply csv_entries_ids_NoDup].
Qed.

(** X15. A configuration that is not a JSON array is read as a
    comma-separated list: its pieces that are not empty after normalization
    become workers numbered [env-1], [env-2], ... without gaps, labelled
    [worker-1], [worker-2], ..., so their ids are pairwise distinct. *)
Theorem csv_workers_numbered (env : option string) :
  not_a_json_list loads (strip (default "" env)) ->
  NoDup (map entry_id (_parse_workers_from_env loads repr_other env))
  /\ (forall i e,
        _parse_workers_from_env loads repr_other env !! i = Some e ->
        entry_id e = "env-" +:+ str_of_int (Z.of_nat i + 1)
        /\ entry_label e = "worker-" +:+ str_of_int (Z.of_nat i + 1)).
Proof.
  intros Hnot. split; [now apply parse_as_csv_ids |].
  rewrite (parse_as_csv env Hnot).
  destruct (String.eqb (strip (default "" env)) ""); intros i e Hi;
    [discriminate |].
  now destruct (csv_entries_spec _ i e Hi) as (H1 & H2 & _).
Qed.

Lemma load_entry_worker now d e :
  load_entry now d e = reg_set d (entry_id e) (env_worker now e).
Proof. destruct e as [[wid label] url]. reflexivity. Qed.

Lemma reg_set_fresh_app d k w :
  reg_get d k = None -> reg_set d k w = d ++ [(k, w)].
Proof.
  induction d as [|[k0 w0] d IH]; simpl; [reflexivity |].
  destruct (String.eqb_spec k0 k); [discriminate | intros H; f_equal; now apply IH].
Qed.

Lemma load_fresh now (es : list EnvEntry) : forall d,
  NoDup (map entry_id es) ->
  (forall k, k ∈ map entry_id es -> reg_get d k = None) ->
  fold_left (load_entry now) es d
  = d ++ map (fun e => (entry_id e, env_worker now e)) es.
Proof.
  induction es as [|e es IH]; intros d Hnd Hfresh; cbn [fold_left map].
  - now rewrite app_nil_r.
  - apply NoDup_cons in Hnd. destruct Hnd as [He Hnd].
    rewrite load_entry_worker, IH.
    + rewrite reg_set_fresh_app by (apply Hfresh; apply list_elem_of_here).
      now rewrite <- app_assoc.
    + exact Hnd.
    + intros k Hk. rewrite reg_get_set_ne.
      * apply Hfresh. now apply list_elem_of_further.
      * intros ->. contradiction.
Qed.

Lemma load_any now (es : list EnvEntry) : forall d,
  reg_wf d ->
  reg_wf (fold_left (load_entry now) es d)
  /\ (forall k, k ∉ map entry_id es ->
        reg_get (fold_left (load_entry now) es d) k = reg_get d k)
  /\ (forall k, k ∈ map entry_id es ->
        exists e, e ∈ es /\ entry_id e = k
                  /\ reg_get (fold_left (load_entry now) es d) k
                     = Some (env_worker now e)).
Proof.
  induction es as [|e es IH]; intros d Hwf; cbn [fold_left map].
  - split; [exact Hwf |]. split; [reflexivity |].
    intros k Hk. now apply elem_of_nil in Hk.
  - assert (Hwf' : reg_wf (load_entry now d e)).
    { rewrite load_entry_worker. now apply reg_set_wf. }
    destruct (IH _ Hwf') as (Hw & Hframe & Hin).
    split; [exact Hw |]. split.
    + intros k Hk. apply not_elem_of_cons in Hk. destruct Hk as [Hke Hk].
      rewrite (Hframe k Hk), load_entry_worker. now apply reg_get_set_ne.
    + intros k Hk.
      destruct (decide (k ∈ map entry_id es)) as [Hes|Hes].
      * destruct (Hin k Hes) as (e' & He' & Hid & Hget).
        exists e'. split; [now apply list_elem_of_further | now split].
      * apply elem_of_cons in Hk. destruct Hk as [->|Hk]; [| contradiction].
        exists e. split; [apply list_elem_of_here |]. split; [reflexivity |].
        rewrite (Hframe _ Hes), load_entry_worker. apply reg_get_set_eq.
Qed.

Lemma same_reading_sorted now (l : list Worker) :
  Forall (fun w => registered_at w = now) l -> Sorted not_after l.
Proof.
  assert (Hirr : SFltb now now = false).
  { destruct (SFltb now now) eqn:E; [| reflexivity].
    now rewrite (Listing.SFltb_asym _ _ E) in E. }
  induction 1 as [|w l Hw Hl IH]; constructor; [exact IH |].
  destruct Hl as [|y l Hy _]; constructor.
  unfold not_after. now rewrite Hw, Hy.
Qed.

(** X16. Loaded into an empty registry, a comma-separated configuration
    gives one entry per worker, all registered and last seen at the time of
    the load with source [env]; the registry has pairwise distinct ids and
    the listing used for planning is the configuration order. *)
Theorem bulk_load_in_configuration_order (now : spec_float) (env : option string) :
  not_a_json_list loads (strip (default "" env)) ->
  _get_workers_list (_load_workers_env_once loads repr_other now env [])
  = map (env_worker now) (_parse_workers_from_env loads repr_other env)
  /\ reg_wf (_load_workers_env_once loads repr_other now env []).
Proof.
  intros Hnot. unfold _load_workers_env_once.
  pose proof (parse_as_csv_ids env Hnot) as Hnd.
  rewrite (load_fresh now _ [] Hnd) by reflexivity. cbn [app].
  split.
  - unfold _get_workers_list, reg_values. rewrite map_map. cbn [snd].
    apply Listing.sorted_by_registered_at_fixed.
    apply (same_reading_sorted now), Forall_map, Forall_forall. reflexivity.
  - split.
    + unfold reg_keys. rewrite map_map. exact Hnd.
    + apply Forall_map, Forall_forall. reflexivity.
Qed.

(** X17. A bulk load into any registry keeps its ids pairwise distinct,
    leaves the entries of the ids it does not configure as they were, and
    stores under each configured id a worker with source [env] whose
    [registered_at] and [last_seen_at] are the time of the load, also when
    the id was registered before. *)
Theorem bulk_load_effect (now : spec_float) (env : option string) (d : registry) :
  reg_wf d ->
  reg_wf (_load_workers_env_once loads repr_other now env d)
  /\ (forall k,
        k ∉ map entry_id (_parse_workers_from_env loads repr_other env) ->
        reg_get (_load_workers_env_once loads repr_other now env d) k
        = reg_get d k)
  /\ (forall k,
        k ∈ map entry_id (_parse_workers_from_env loads repr_other env) ->
        exists e,
          e ∈ _parse_workers_from_env loads repr_other env
          /\ entry_id e = k
          /\ reg_get (_load_workers_env_once loads repr_other now env d) k
             = Some (env_worker now e)).
Proof. intros Hwf. unfold _load_workers_env_once. now apply load_any. Qed.

Lemma json_entries_position (parsed : list json) : forall k i d,
  parsed !! i = Some (JDict d) ->
  truthy (dict_get d "id") = false ->
  entry_url (unnamed_entry repr_other (k + i) d) <> "" ->
  unnamed_entry repr_other (k + i) d ∈ json_entries repr_other k parsed.
Proof.
  induction parsed as [|x parsed IH]; intros k i d Hi Hid Hurl; [discriminate |].
  destruct i as [|i].
  - cbn in Hi. injection Hi as ->. cbn [json_entries].
    rewrite Nat.add_0_r in *.
    assert (Hor : or_else (dict_get d "id")
                    (JStr ("env-" +:+ str_of_int (Z.of_nat k + 1)))
                  = JStr ("env-" +:+ str_of_int (Z.of_nat k + 1)))
      by (unfold or_else; now rewrite Hid).
    rewrite Hor. cbn [str_of].
    unfold unnamed_entry, entry_url in Hurl. cbn [snd] in Hurl.
    apply String.eqb_neq in Hurl. rewrite Hurl. cbn [negb].
    apply list_elem_of_here.
  - cbn in Hi. replace (k + S i)%nat with (S k + i)%nat in * by lia.
    specialize (IH (S k) i d Hi Hid Hurl). cbn [json_entries].
    destruct x; try exact IH.
    destruct (negb _); [now apply list_elem_of_further | exact IH].
Qed.

Lemma json_entries_length (parsed : list json) : forall k,
  (length (json_entries repr_other k parsed) <= length parsed)%nat.
Proof.
  induction parsed as [|x parsed IH]; intros k; cbn [json_entries length]; [lia |].
  specialize (IH (S k)).
  destruct x; try lia. destruct (negb _); cbn [length]; lia.
Qed.

(** X23. In a configuration that is a JSON array, an object without a usable
    [id] and with an endpoint that is not empty becomes a worker named after
    its position in the array, [env-] and the index plus one, so elements
    that are skipped leave gaps in the numbering; no element yields more than
    one worker. *)
Theorem json_workers_by_position (env : option string) (parsed : list json) :
  strip (default "" env) <> "" ->
  loads (strip (default "" env)) = Some (JList parsed) ->
  (length (_parse_workers_from_env loads repr_other env) <= length parsed)%nat
  /\ (forall i d,
        parsed !! i = Some (JDict d) ->
        truthy (dict_get d "id") = false ->
        entry_url (unnamed_entry repr_other i d) <> "" ->
        unnamed_entry repr_other i d
        ∈ _parse_workers_from_env loads repr_other env).
Proof.
  intros Hraw Hloads. unfold _parse_workers_from_env.
  apply String.eqb_neq in Hraw. rewrite Hraw, Hloads.
  split; [apply json_entries_length |].
  intros i d Hi Hid Hurl. now apply (json_entries_position parsed 0 i d).
Qed.

End Loaded.

(** Two endpoints and an empty piece: [env-1] and [env-2]. *)
Lemma csv_workers_numbered_witness :
  map entry_id (_parse_workers_from_env rejects_all no_repr two_endpoints)
  = ["env-1"; "env-2"]
  /\ NoDup (map entry_id (_parse_workers_from_env rejects_all no_repr two_endpoints)).
Proof.
  split; [reflexivity |].
  apply (csv_workers_numbered rejects_all no_repr two_endpoints).
  intros l. discriminate.
Defined.

(** The same configuration loaded: listed in configuration order. *)
Lemma bulk_load_in_configuration_order_witness :
  map url (_get_workers_list
             (_load_workers_env_once rejects_all no_repr settled two_endpoints []))
  = ["https://a"; "localhost:9"].
Proof.
  destruct (bulk_load_in_configuration_order rejects_all no_repr settled
              two_endpoints) as [H _].
  - intros l. discriminate.
  - rewrite H. reflexivity.
Defined.

(** Loading over a registry that holds [a]: the entry of [a] is kept. *)
Lemma bulk_load_effect_witness :
  reg_get (_load_workers_env_once rejects_all no_repr settled two_endpoints
             (workers holding_a)) "a"
  = Some first_a.
Proof.
  destruct (bulk_load_effect rejects_all no_repr settled two_endpoints
              (workers holding_a)) as (_ & H & _).
  - split; [compute_done | repeat constructor].
  - rewrite (H "a"); [reflexivity |].
    intros Hin. vm_compute in Hin.
    apply elem_of_cons in Hin. destruct Hin as [Hin|Hin]; [discriminate |].
    apply elem_of_cons in Hin. destruct Hin as [Hin|Hin]; [discriminate |].
    now apply elem_of_nil in Hin.
Defined.

(** An array of a number and an object: one worker, named [env-2]. *)
Lemma json_workers_by_position_witness :
  _parse_workers_from_env reads_array no_repr (Some "[...]")
  = [("env-2", "env-2", "http://x")]
  /\ unnamed_entry no_repr 1 {[ "url" := JStr "http://x/" ]}
     ∈ _parse_workers_from_env reads_array no_repr (Some "[...]").
Proof.
  split; [reflexivity |].
  apply (json_workers_by_position reads_array no_repr (Some "[...]")
           [JInt 1; JDict {[ "url" := JStr "http://x/" ]}]).
  - discriminate.
  - reflexivity.
  - reflexivity.
  - reflexivity.
  - discriminate.
Defined.

End BulkLoad.

(** ** The files written by the executor *)

Module Files.
Import Py WorkerSvc WorkerTerms.

Lemma replace_char_removes ch l :
  ch <> "_"%char -> Forall (fun c => c <> ch) (replace_char ch l).
Proof.
  intros Hch. unfold replace_char. apply Forall_map, Forall_forall. intros c _.
  destruct (Ascii.eqb_spec c ch); congruence.
Qed.

Lemma replace_char_keeps c ch l :
  c <> "_"%char -> Forall (fun x => x <> c) l ->
  Forall (fun x => x <> c) (replace_char ch l).
Proof.
  intros Hc. unfold replace_char. induction 1 as [|x l Hx _ IH]; cbn [map];
    constructor; [| exact IH].
  destruct (Ascii.eqb x ch); congruence.
Qed.

Lemma replace_all_keeps c (bs : list ascii) : forall l,
  c <> "_"%char -> Forall (fun x => x <> c) l ->
  Forall (fun x => x <> c) (fold_left (fun s ch => replace_char ch s) bs l).
Proof.
  induction bs as [|b bs IH]; intros l Hc Hl; cbn [fold_left]; [exact Hl |].
  apply IH; [exact Hc | now apply replace_char_keeps].
Qed.

Lemma replace_all_removes c (bs : list ascii) : forall l,
  "_"%char ∉ bs -> c ∈ bs ->
  Forall (fun x => x <> c) (fold_left (fun s ch => replace_char ch s) bs l).
Proof.
  induction bs as [|b bs IH]; intros l Hu Hc; [now apply elem_of_nil in Hc |].
  apply not_elem_of_cons in Hu. destruct Hu as [Hub Hu]. cbn [fold_left].
  destruct (decide (c ∈ bs)) as [Hin|Hout]; [now apply IH |].
  apply elem_of_cons in Hc. destruct Hc as [->|Hc]; [| contradiction].
  apply replace_all_keeps; [congruence |].
  apply replace_char_removes. congruence.
Qed.

Lemma replace_all_length (bs : list ascii) : forall l,
  length (fold_left (fun s ch => replace_char ch s) bs l) = length l.
Proof.
  induction bs as [|b bs IH]; intros l; cbn [fold_left]; [reflexivity |].
  rewrite IH. unfold replace_char. apply length_map.
Qed.

Lemma replace_char_fixed ch l :
  Forall (fun x => x <> ch) l -> replace_char ch l = l.
Proof.
  unfold replace_char. induction 1 as [|x l Hx _ IH]; cbn [map]; [reflexivity |].
  rewrite IH. destruct (Ascii.eqb_spec x ch); congruence.
Qed.

Lemma replace_all_fixed (bs : list ascii) : forall l,
  Forall (fun x => x ∉ bs) l ->
  fold_left (fun s ch => replace_char ch s) bs l = l.
Proof.
  induction bs as [|b bs IH]; intros l Hl; cbn [fold_left]; [reflexivity |].
  rewrite replace_char_fixed.
  - apply IH. eapply Forall_impl; [exact Hl |]. cbn. intros x Hx Hin.
    apply Hx. now apply list_elem_of_further.
  - eapply Forall_impl; [exact Hl |]. cbn. intros x Hx ->.
    apply Hx. apply list_elem_of_here.
Qed.

(** X18. The base of the file names is never empty, has at most 80
    characters and contains none of the characters of [bad] (so no path
    separator); a name that is already safe and short is used as it is,
    trimmed. *)
Theorem safe_base_name_safe (name : string) :
  _safe_base_name name <> ""
  /\ (length (chars (_safe_base_name name)) <= 80)%nat
  /\ Forall (fun c => c ∉ bad) (chars (_safe_base_name name))
  /\ (strip name <> "" ->
      (length (chars (strip name)) <= 80)%nat ->
      Forall (fun c => c ∉ bad) (chars (strip name)) ->
      _safe_base_name name = strip name).
Proof.
  unfold _safe_base_name, chars.
  set (raw := list_ascii_of_string (strip name)).
  pose proof (replace_all_length bad raw) as Hlen.
  assert (Hsafe : Forall (fun c => c ∉ bad)
                    (fold_left (fun s ch => replace_char ch s) bad raw)).
  { apply Forall_forall. intros c Hc Hbad.
    assert (Hu : "_"%char ∉ bad) by compute_done.
    pose proof (replace_all_removes c bad raw Hu Hbad) as Hno.
    rewrite Forall_forall in Hno. now apply (Hno c). }
  destruct (fold_left (fun s ch => replace_char ch s) bad raw) as [|c l] eqn:E.
  - split; [discriminate |]. split; [simpl; lia |].
    split; [repeat constructor; compute_done |].
    intros Hne. exfalso. apply Hne.
    rewrite <- (string_of_list_ascii_of_string (strip name)). fold raw.
    destruct raw; [reflexivity | discriminate].
  - split; [discriminate |].
    rewrite list_ascii_of_string_of_list_ascii.
    split; [rewrite length_take; lia |].
    split; [now apply Forall_take |].
    intros _ Hshort Hclean. rewrite <- E.
    rewrite (replace_all_fixed bad raw Hclean), take_ge by exact Hshort.
    apply string_of_list_ascii_of_string.
Qed.

Lemma chars_app s1 s2 : chars (s1 +:+ s2) = chars s1 ++ chars s2.
Proof.
  unfold chars. induction s1 as [|c s1 IH]; [reflexivity |].
  cbn. now rewrite <- IH.
Qed.

Lemma chars_inj s1 s2 : chars s1 = chars s2 -> s1 = s2.
Proof.
  unfold chars. intros H.
  rewrite <- (string_of_list_ascii_of_string s1),
          <- (string_of_list_ascii_of_string s2).
  now rewrite H.
Qed.

Lemma file_path_inj dir base i j :
  file_path dir base i = file_path dir base j -> i = j.
Proof.
  unfold file_path, file_name, str_of_int. intros H.
  do 4 apply (inj (String.app _)) in H.
  apply (inj pretty). apply chars_inj.
  apply (f_equal chars) in H. rewrite !chars_app in H.
  now apply app_inv_tail in H.
Qed.

Lemma range1_elem count i : i ∈ range1 count <-> 1 <= i <= count.
Proof.
  unfold range1. rewrite list_elem_of_fmap. split.
  - intros (k & -> & Hk). apply elem_of_seq in Hk. lia.
  - intros Hi. exists (Z.to_nat i). split; [lia |]. apply elem_of_seq. lia.
Qed.

Lemma range1_NoDup count : NoDup (range1 count).
Proof.
  unfold range1. apply (NoDup_fmap_2 Z.of_nat), NoDup_seq.
Qed.

Lemma has_nul_app s1 s2 : has_nul (s1 +:+ s2) = has_nul s1 || has_nul s2.
Proof.
  unfold has_nul. induction s1 as [|c s1 IH]; [reflexivity |].
  change (String c s1 +:+ s2) with (String c (s1 +:+ s2)).
  cbn [list_ascii_of_string existsb]. now rewrite IH, orb_assoc.
Qed.

Lemma pretty_N_char_not_nul x : Ascii.eqb Ascii.zero (pretty_N_char x) = false.
Proof.
  unfold pretty_N_char. destruct x as [|p]; [reflexivity |].
  repeat (destruct p as [p|p|]; try reflexivity).
Qed.

Lemma pretty_N_go_no_nul x : forall s,
  has_nul s = false -> has_nul (pretty_N_go x s) = false.
Proof.
  induction (N.lt_wf_0 x) as [x _ IH]; intros s Hs.
  destruct (N.eq_dec x 0%N) as [->|Hx].
  - now rewrite pretty_N_go_0.
  - rewrite pretty_N_go_step by lia. apply IH; [apply N.div_lt; lia |].
    unfold has_nul in *. cbn [list_ascii_of_string existsb].
    now rewrite pretty_N_char_not_nul.
Qed.

(** The decimal text of an integer has no NUL. *)
Lemma str_of_int_no_nul i : has_nul (str_of_int i) = false.
Proof.
  assert (Hpos : forall p : positive, has_nul (pretty p) = false).
  { intros p. unfold pretty, pretty_positive, pretty, pretty_N.
    destruct (decide (N.pos p = 0%N)); [reflexivity |].
    now apply pretty_N_go_no_nul. }
  unfold str_of_int, pretty, pretty_Z. destruct i as [|p|p].
  - reflexivity.
  - apply Hpos.
  - rewrite has_nul_app, Hpos. reflexivity.
Qed.

Lemma file_path_no_nul dir base i :
  has_nul dir = false -> has_nul base = false ->
  has_nul (file_path dir base i) = false.
Proof.
  intros Hh Hb. unfold file_path, file_name.
  rewrite !has_nul_app, Hh, Hb, str_of_int_no_nul. reflexivity.
Qed.

Section Written.

Variables (LABEL dir : string) (stamp : Z -> string).
Variable write_error : Disk -> string -> string -> option (exn * Disk).
Variables (base task_id name : string).

Lemma write_one_ok (st : Loop) (i : Z) :
  has_nul (file_path dir base i) = false ->
  (forall d text, write_error d (file_path dir base i) text = None) ->
  write_one LABEL stamp write_error dir base task_id name
    st i
  = inl {| disk := <[file_path dir base i := file_text LABEL stamp task_id name i]>
                     (disk st);
           l_created := l_created st + 1;
           sample_files :=
             if (length (sample_files st) <? 5)%nat
             then sample_files st ++ [file_name base i]
             else sample_files st |}.
Proof.
  intros Hnul Hos. unfold write_one, write_text.
  change (_ +:+ "/" +:+ _ +:+ "-" +:+ str_of_int i +:+ ".txt")
    with (file_path dir base i).
  now rewrite Hnul, Hos.
Qed.

(** The loop of [_execute] when no write is refused: every index adds one
    to [created], the samples are the first five file names, each file holds
    its text, and no other path has changed. *)
Lemma write_all_ok (l : list Z) : forall st : Loop,
  NoDup l ->
  (length (sample_files st) <= 5)%nat ->
  (forall i, i ∈ l -> has_nul (file_path dir base i) = false) ->
  (forall d i text, i ∈ l -> write_error d (file_path dir base i) text = None) ->
  exists st',
    write_all LABEL stamp write_error dir base task_id
      name l st = inl st'
    /\ l_created st' = l_created st + Z.of_nat (length l)
    /\ sample_files st' = take 5 (sample_files st ++ map (file_name base) l)
    /\ (forall i, i ∈ l ->
          disk st' !! file_path dir base i
          = Some (file_text LABEL stamp task_id name i))
    /\ (forall p, (forall i, i ∈ l -> p <> file_path dir base i) ->
          disk st' !! p = disk st !! p)
    /\ dom (disk st')
       = dom (disk st) ∪ list_to_set (map (file_path dir base) l).
Proof.
  induction l as [|j l IH]; intros st Hnd Hst Hnul Hos; cbn [write_all map].
  - exists st. split; [reflexivity |]. split; [simpl; lia |].
    split; [rewrite app_nil_r; symmetry; now apply take_ge |].
    split; [intros i Hi; now apply elem_of_nil in Hi |].
    split; [reflexivity |]. cbn [list_to_set].
    now rewrite (right_id_L ∅ (∪)).
  - apply NoDup_cons in Hnd. destruct Hnd as [Hj Hnd].
    rewrite write_one_ok;
      [| apply Hnul, list_elem_of_here
       | intros d text; apply Hos, list_elem_of_here].
    set (st1 := {| disk := _; l_created := _; sample_files := _ |}).
    assert (Hlen : (length (sample_files st1) <= 5)%nat).
    { subst st1. cbn [sample_files].
      destruct (Nat.ltb_spec (length (sample_files st)) 5);
        [rewrite length_app; simpl; lia | exact Hst]. }
    destruct (IH st1 Hnd Hlen) as (st' & Hrun & Hc & Hs & Hin & Hout & Hdom).
    { intros i Hi. apply Hnul. now apply list_elem_of_further. }
    { intros d i text Hi. apply Hos. now apply list_elem_of_further. }
    exists st'. split; [exact Hrun |].
    assert (Hstep : disk st1
                    = <[file_path dir base j := file_text LABEL stamp task_id name j]>
                        (disk st)) by reflexivity.
    split; [| split; [| split; [| split]]].
    + rewrite Hc. subst st1. cbn [l_created length]. lia.
    + rewrite Hs. subst st1. cbn [sample_files].
      destruct (Nat.ltb_spec (length (sample_files st)) 5) as [Hlt|Hge].
      * now rewrite <- app_assoc.
      * rewrite !take_app_le by lia. reflexivity.
    + intros i Hi. apply elem_of_cons in Hi.
      destruct Hi as [->|Hi]; [| now apply Hin].
      rewrite Hout, Hstep; [apply lookup_insert_eq |].
      intros i Hi E. apply file_path_inj in E. congruence.
    + intros p Hp. rewrite Hout, Hstep.
      * apply lookup_insert_ne. intros E.
        apply (Hp j); [apply list_elem_of_here | now symmetry].
      * intros i Hi. apply Hp. now apply list_elem_of_further.
    + rewrite Hdom, Hstep. unfold Disk. rewrite dom_insert_L.
      cbn [list_to_set].
      now rewrite (assoc_L (∪)), (comm_L (∪) (dom (disk st))).
Qed.

End Written.

(** What [execute] does with an accepted request when neither a NUL nor the
    operating system is in the way. *)
Lemma execute_accepted (LABEL dir : string) (stamp : Z -> string)
    (mkdir_error : Disk -> option exn)
    (write_error : Disk -> string -> string -> option (exn * Disk))
    (elapsed_ms : Z) (d : Disk) (body : ExecuteIn) :
  String.eqb (strip (name body)) "" = false -> 0 <= count body ->
  has_nul dir = false ->
  has_nul (_safe_base_name (strip (name body))) = false ->
  lets_write mkdir_error write_error dir
    (_safe_base_name (strip (name body))) (count body) ->
  exists st',
    write_all LABEL stamp write_error dir
      (_safe_base_name (strip (name body))) (default "" (taskId body))
      (strip (name body)) (range1 (count body))
      {| disk := d; l_created := 0; sample_files := [] |} = inl st'
    /\ execute LABEL dir stamp mkdir_error write_error elapsed_ms d body
       = (Ok {| ok := true;
                worker := LABEL;
                r_taskId := default "" (taskId body);
                created := count body;
                folder := dir;
                sampleFiles :=
                  take 5 (map (file_name (_safe_base_name (strip (name body))))
                              (range1 (count body)));
                elapsedMs := elapsed_ms |},
          disk st')
    /\ (forall i, 1 <= i <= count body ->
          disk st' !! file_path dir (_safe_base_name (strip (name body))) i
          = Some (file_text LABEL stamp (default "" (taskId body))
                    (strip (name body)) i))
    /\ (forall p,
          (forall i, 1 <= i <= count body ->
             p <> file_path dir (_safe_base_name (strip (name body))) i) ->
          disk st' !! p = d !! p)
    /\ dom (disk st')
       = dom d ∪ list_to_set (map (file_path dir
                                     (_safe_base_name (strip (name body))))
                                  (range1 (count body))).
Proof.
  intros Hname Hcount Hhome Hbase [Hmk Hwr].
  destruct (write_all_ok LABEL dir stamp write_error
              (_safe_base_name (strip (name body)))
              (default "" (taskId body)) (strip (name body))
              (range1 (count body))
              {| disk := d; l_created := 0; sample_files := [] |}
              (range1_NoDup (count body)))
    as (st' & Hrun & Hc & Hs & Hin & Hout & Hdom).
  { simpl. lia. }
  { intros i _. now apply file_path_no_nul. }
  { intros d0 i text Hi. apply Hwr. now apply range1_elem. }
  exists st'. split; [exact Hrun |]. split; [| split; [| split]].
  - unfold execute. rewrite Hname.
    destruct (Z.ltb_spec (count body) 0) as [Hneg|_]; [lia |].
    unfold _execute, _ensure_folder. rewrite Hmk, Hrun, Hc, Hs.
    rewrite Executor.range1_length. cbn [l_created app].
    now rewrite Z.add_0_l, Z2Nat.id by exact Hcount.
  - intros i Hi. apply Hin. now apply range1_elem.
  - intros p Hp. rewrite Hout; [reflexivity |].
    intros i Hi. apply Hp. now apply range1_elem.
  - exact Hdom.
Qed.

(** X19. A request that [execute] refuses leaves the files as they were.  A
    request for [count] files that is accepted, with no NUL character in the
    folder path or in the base name and an operating system that lets the
    folder be made and the files be written, is answered with [ok] true,
    [created] equal to [count] and the names of the first files, at most
    five, as [sampleFiles]; it leaves, for each [i] from 1 to [count], the
    text of file [i] under its path in the folder, these [count] paths are
    pairwise distinct, and no other path is changed. *)
Theorem execute_disk_effect (LABEL dir : string) (stamp : Z -> string)
    (mkdir_error : Disk -> option exn)
    (write_error : Disk -> string -> string -> option (exn * Disk))
    (elapsed_ms : Z) (d : Disk) (body : ExecuteIn) :
  (forall c dt,
     fst (execute LABEL dir stamp mkdir_error write_error elapsed_ms d body)
     = HTTPException c dt ->
     snd (execute LABEL dir stamp mkdir_error write_error elapsed_ms d body)
     = d)
  /\ (String.eqb (strip (name body)) "" = false -> 0 <= count body ->
      has_nul dir = false ->
      has_nul (_safe_base_name (strip (name body))) = false ->
      lets_write mkdir_error write_error dir
        (_safe_base_name (strip (name body))) (count body) ->
      (exists r,
         fst (execute LABEL dir stamp mkdir_error write_error elapsed_ms d body)
         = Ok r
         /\ ok r = true
         /\ created r = count body
         /\ sampleFiles r
            = take 5 (map (file_name (_safe_base_name (strip (name body))))
                          (range1 (count body)))
         /\ (length (sampleFiles r) <= 5)%nat)
      /\ (forall i, 1 <= i <= count body ->
            snd (execute LABEL dir stamp mkdir_error write_error elapsed_ms d
                   body)
              !! file_path dir (_safe_base_name (strip (name body))) i
            = Some (file_text LABEL stamp (default "" (taskId body))
                      (strip (name body)) i))
      /\ (forall i j,
            file_path dir (_safe_base_name (strip (name body))) i
            = file_path dir (_safe_base_name (strip (name body))) j ->
            i = j)
      /\ (forall p,
            (forall i, 1 <= i <= count body ->
               p <> file_path dir (_safe_base_name (strip (name body))) i) ->
            snd (execute LABEL dir stamp mkdir_error write_error elapsed_ms d
                   body) !! p
            = d !! p)).
Proof.
  split.
  - unfold execute.
    destruct (String.eqb (strip (name body)) ""); [reflexivity |].
    destruct (count body <? 0); [reflexivity |].
    unfold _execute, _ensure_folder.
    destruct (mkdir_error d); [intros c dt H; discriminate |].
    destruct (write_all _ _ _ _ _ _ _ _ _) as [st'|[e d']];
      intros c dt H; discriminate.
  - intros Hname Hcount Hhome Hbase Hos.
    destruct (execute_accepted LABEL dir stamp mkdir_error write_error
                elapsed_ms d body Hname Hcount Hhome Hbase Hos)
      as (st' & _ & -> & Hin & Hout & _).
    cbn [fst snd]. split; [| split; [| split]].
    + eexists. split; [reflexivity |]. cbn [ok created sampleFiles].
      repeat split. rewrite length_take. lia.
    + exact Hin.
    + intros i j. apply file_path_inj.
    + exact Hout.
Qed.

(** Seven files requested on an empty disk: seven created, five sampled,
    and the third file is in the folder. *)
Lemma execute_disk_effect_witness :
  (exists r,
     fst (execute "mac-1" my_folder fixed_stamp willing_mkdir willing_write 3
            ∅ seven_files) = Ok r
     /\ created r = 7
     /\ sampleFiles r
        = ["report-1.txt"; "report-2.txt"; "report-3.txt"; "report-4.txt";
           "report-5.txt"])
  /\ snd (execute "mac-1" my_folder fixed_stamp willing_mkdir willing_write 3
            ∅ seven_files)
       !! "/Users/me/Desktop/test/report-3.txt"
     = Some (file_text "mac-1" fixed_stamp "task-1" "report" 3).
Proof.
  destruct (execute_disk_effect "mac-1" my_folder fixed_stamp willing_mkdir
              willing_write 3 ∅ seven_files) as [_ H].
  destruct H as ((r & Hr & _ & Hc & Hs & _) & Hin & _).
  - reflexivity.
  - simpl. lia.
  - reflexivity.
  - reflexivity.
  - split; reflexivity.
  - split.
    + exists r. split; [exact Hr |]. split; [exact Hc |].
      rewrite Hs. reflexivity.
    + apply (Hin 3). simpl. lia.
Defined.

(** X20. Running an accepted request a second time, whatever the clock
    shows, creates no new path when neither a NUL character nor the operating
    system is in the way: the folder holds the same files as after the first
    run, although the answer again reports [count] files created. *)
Theorem rerun_overwrites (LABEL dir : string) (stamp stamp' : Z -> string)
    (mkdir_error : Disk -> option exn)
    (write_error : Disk -> string -> string -> option (exn * Disk))
    (ms ms' : Z) (d : Disk) (body : ExecuteIn) :
  String.eqb (strip (name body)) "" = false -> 0 <= count body ->
  has_nul dir = false ->
  has_nul (_safe_base_name (strip (name body))) = false ->
  lets_write mkdir_error write_error dir
    (_safe_base_name (strip (name body))) (count body) ->
  dom (snd (execute LABEL dir stamp' mkdir_error write_error ms'
              (snd (execute LABEL dir stamp mkdir_error write_error ms d body))
              body))
  = dom (snd (execute LABEL dir stamp mkdir_error write_error ms d body))
  /\ exists r,
       fst (execute LABEL dir stamp' mkdir_error write_error ms'
              (snd (execute LABEL dir stamp mkdir_error write_error ms d body))
              body) = Ok r
       /\ created r = count body.
Proof.
  intros Hname Hcount Hhome Hbase Hos.
  destruct (execute_accepted LABEL dir stamp mkdir_error write_error
              ms d body Hname Hcount Hhome Hbase Hos)
    as (st1 & _ & -> & _ & _ & Hdom1).
  cbn [snd].
  destruct (execute_accepted LABEL dir stamp' mkdir_error write_error
              ms' (disk st1) body Hname Hcount Hhome Hbase Hos)
    as (st2 & _ & -> & _ & _ & Hdom2).
  cbn [fst snd]. split.
  - rewrite Hdom2, Hdom1.
    now rewrite <- (assoc_L (∪)), (idemp_L (∪)).
  - eexists. split; reflexivity.
Qed.

(** Seven files written twice: still seven paths. *)
Lemma rerun_overwrites_witness :
  size (dom (snd (execute "mac-1" my_folder later_stamp willing_mkdir
                    willing_write 4
                    (snd (execute "mac-1" my_folder fixed_stamp willing_mkdir
                            willing_write 3 ∅ seven_files))
                    seven_files)))
  = size (dom (snd (execute "mac-1" my_folder fixed_stamp willing_mkdir
                      willing_write 3 ∅ seven_files))).
Proof.
  destruct (rerun_overwrites "mac-1" my_folder fixed_stamp later_stamp
              willing_mkdir willing_write 3 4 ∅ seven_files) as [H _];
    [reflexivity | simpl; lia | reflexivity | reflexivity
     | split; reflexivity |].
  now rewrite H.
Defined.

End Files.

(** ** The registry query, the planner on any total, and a first worker *)

Module Query.
Import Py Api ApiTerms Registry.

Lemma collect_views (l : list Worker) :
  timestamps_convert l ->
  exists views, collect view_of l = Ok views /\ Forall2 shows l views.
Proof.
  induction 1 as [|w l (a & b & Ha & Hb) _ (views & Hviews & Hall)].
  - exists []. split; [reflexivity | constructor].
  - assert (Hw : view_of w
                 = Ok {| v_id := id w; v_label := label w; v_url := url w;
                         registeredAt := a; lastSeenAt := b;
                         v_source := source w |}).
    { unfold view_of. now rewrite Ha, Hb. }
    eexists. split.
    + change (collect view_of (w :: l))
        with (y ← view_of w; ys ← collect view_of l; Ok (y :: ys)).
      rewrite Hw, Hviews. reflexivity.
    + constructor; [| exact Hall]. repeat split; assumption.
Qed.

(** X21. When the timestamps of all workers can be shown in milliseconds,
    the registry query answers with one element per registered worker, in the
    order of the planning listing, each showing the id, label, endpoint,
    source and the two timestamps of its worker. *)
Theorem api_workers_lists_every_worker (d : registry) :
  timestamps_convert (reg_values d) ->
  exists views,
    api_workers d = Ok views
    /\ length views = length d
    /\ Forall2 shows (_get_workers_list d) views.
Proof.
  intros Hconv. unfold api_workers.
  assert (Hlist : timestamps_convert (_get_workers_list d)).
  { unfold timestamps_convert, _get_workers_list.
    now rewrite (Listing.sorted_by_registered_at_perm (reg_values d)). }
  destruct (collect_views _ Hlist) as (views & Hviews & Hall).
  exists views. split; [exact Hviews |]. split; [| exact Hall].
  rewrite <- (Forall2_length _ _ _ Hall). unfold _get_workers_list.
  rewrite (Permutation_length (Listing.sorted_by_registered_at_perm (reg_values d))).
  unfold reg_values. apply length_map.
Qed.

(** The registry holding [b] and [a] is shown as [a], [b]. *)
Lemma api_workers_lists_every_worker_witness :
  exists views,
    api_workers out_of_order = Ok views
    /\ map v_id views = ["a"; "b"]
    /\ map registeredAt views = [1700000000250; 1700000000250].
Proof.
  destruct (api_workers_lists_every_worker out_of_order) as (views & Hv & _).
  - repeat constructor; eexists; eexists; split; vm_compute; reflexivity.
  - exists views. vm_compute in Hv. injection Hv as <-.
    split; [vm_compute; reflexivity | split; reflexivity].
Defined.

(** X22. The planner fails exactly on the empty list, with a division by
    zero.  On any other list and for every integer total, negative ones
    included, the plan keeps the workers in order, its counts add up to the
    total, and a worker never gets fewer units than a later one, nor more
    than one unit more. *)
Theorem distribute_evenly_any_total (total : Z) (ws : list Worker) :
  (ws = [] -> _distribute_evenly total ws = Raise ZeroDivisionError)
  /\ (ws <> [] ->
      exists plan,
        _distribute_evenly total ws = Ok plan
        /\ map fst plan = ws
        /\ sum_counts (map snd plan) = total
        /\ (forall i j wi wj,
              (i <= j)%nat -> plan !! i = Some wi -> plan !! j = Some wj ->
              snd wj <= snd wi <= snd wj + 1)).
Proof.
  split; [intros ->; reflexivity |].
  intros Hne. exists (plan_for total ws).
  split; [now apply Tasks.distribute_plan_for |].
  split; [apply Planner.workers_kept |].
  split; [now apply Tasks.plan_for_sum |].
  intros i j wi wj Hij Hi Hj. unfold plan_for in Hi, Hj.
  rewrite list_lookup_imap in Hi, Hj.
  destruct (ws !! i) as [a|]; [| discriminate].
  destruct (ws !! j) as [b|]; [| discriminate].
  cbn in Hi, Hj. injection Hi as <-. injection Hj as <-. cbn [snd].
  destruct (Z.ltb_spec (Z.of_nat i) (total mod Z.of_nat (length ws))),
           (Z.ltb_spec (Z.of_nat j) (total mod Z.of_nat (length ws))); lia.
Qed.

(** X24. Registration and dispatch compose: once one worker has registered
    with an empty registry, a task for a positive count is, when the timeout
    setting converts to a float [timeout], posted in full to that worker's
    endpoint, as a single call that carries the next task id and the trimmed
    name. *)
Theorem first_worker_gets_everything
    rbody t_id t_now w st' tbody timeout net now ms st :
  workers st = [] ->
  api_register_worker rbody t_id t_now st = (Ok w, st') ->
  0 < body_count tbody ->
  snd (api_create_task tbody (Some timeout) net now ms st')
  = [ (url w +:+ "/execute",
       {| taskId := "task-" +:+ str_of_int (task_seq st + 1);
          name := strip (body_name tbody);
          count := body_count tbody |}) ].
Proof.
  intros Hempty Hreg Hcount.
  assert (Hst' : workers st' = [(id w, w)] /\ task_seq st' = task_seq st).
  { revert Hreg. unfold api_register_worker.
    destruct (String.eqb _ ""); [discriminate |].
    destruct (negb _); [discriminate |].
    destruct (register_wid _ _); [| discriminate ..].
    rewrite Hempty. intros [= <- <-]. now split. }
  destruct Hst' as [Hw Hseq].
  rewrite (Tasks.create_task_outcome tbody timeout net now ms st')
    by (rewrite Hw; discriminate).
  cbn [snd]. unfold assignments_of, next_task_id. rewrite Hw, Hseq.
  unfold _get_workers_list, sorted_by_registered_at, plan_for.
  cbn [reg_values map snd foldr insert_by_key length imap].
  change (Z.of_nat 1) with 1. rewrite Z.div_1_r, Z.mod_1_r.
  change (Z.of_nat 0 <? 0) with false. rewrite Z.add_0_r.
  unfold positive_assignments.
  rewrite filter_cons_True by exact Hcount.
  reflexivity.
Qed.

(** [c] registers first; five units go to [http://c/execute]. *)
Lemma first_worker_gets_everything_witness :
  snd (api_create_task five_units one_minute unreachable settled 7
         (snd (api_register_worker new_c reading_a reading_a empty_state)))
  = [ ("http://c/execute",
       {| taskId := "task-1"; name := "job"; count := 5 |}) ].
Proof.
  apply (first_worker_gets_everything new_c reading_a reading_a
           (registered_worker new_c "c" reading_a empty_state)
           (snd (api_register_worker new_c reading_a reading_a empty_state))
           five_units (float_of_Z 60) unreachable settled 7 empty_state).
  - reflexivity.
  - reflexivity.
  - simpl. lia.
Defined.

End Query.
